(** * mwaa.logging.config: the logging configuration of the Airflow image

    A shallow embedding of [images/airflow/2.9.1/python/mwaa/logging/config.py].

    The module copies Airflow's [DEFAULT_LOGGING_CONFIG] one level deep
    ([{**DEFAULT_LOGGING_CONFIG}]) and then mutates the nested "handlers" and
    "loggers" dictionaries in place.  Dictionaries are therefore objects of a
    store, addressed by reference, and the functions of the module are
    computations in a monad that reads [os.environ], threads the store and may
    raise a Python exception. *)

From stdpp Require Import gmap strings list fin_maps.
From Stdlib Require Import Ascii String.

Open Scope string_scope.

(** ** Python strings *)

(** [str.isascii]: every character is below 128. *)
Definition isascii (s : string) : bool :=
  forallb (λ c, (nat_of_ascii c <? 128)%nat) (list_ascii_of_string s).

(** [str.upper] and [str.lower], on ASCII strings.  Python maps characters
    outside ASCII as well, and some of them to ASCII letters (the long s,
    U+017F, is upper-cased to "S"; the Kelvin sign, U+212A, is lower-cased
    to "k"); [upper] and [lower] below leave every byte outside ASCII
    alone, and so are Python's functions exactly on the strings for which
    [isascii] holds.  These are the strings the module itself passes: its
    six source names and the keys of [MWAA_LOGGERS].  A statement about an
    arbitrary name assumes [isascii] of it.  The value of a LOGS_ENABLED
    variable is not restricted: no character outside ASCII has "t", "r",
    "u" or "e" as its lower-case form, so its comparison with "true" is
    decided on ASCII letters alone. *)
Definition ascii_upper (c : ascii) : ascii :=
  let n := nat_of_ascii c in
  if ((97 <=? n) && (n <=? 122))%nat then ascii_of_nat (n - 32) else c.

Definition ascii_lower (c : ascii) : ascii :=
  let n := nat_of_ascii c in
  if ((65 <=? n) && (n <=? 90))%nat then ascii_of_nat (n + 32) else c.

Fixpoint upper (s : string) : string :=
  match s with
  | EmptyString => EmptyString
  | String c s' => String (ascii_upper c) (upper s')
  end.

Fixpoint lower (s : string) : string :=
  match s with
  | EmptyString => EmptyString
  | String c s' => String (ascii_lower c) (lower s')
  end.

(** [s.replace(old, new)] for one-character [old] and [new]. *)
Fixpoint replace (old new : ascii) (s : string) : string :=
  match s with
  | EmptyString => EmptyString
  | String c s' =>
      String (if Ascii.eqb c old then new else c) (replace old new s')
  end.

(** ** Python values and the store *)

Definition loc := positive.
Bind Scope positive_scope with loc.

#[warnings="-register-all"]
Inductive value :=
  | VNone
  | VBool (b : bool)
  | VInt (n : Z)
  | VStr (s : string)
  | VList (l : list value)
  | VDict (r : loc).

Abbreviation dict := (gmap string value).
Abbreviation heap := (gmap loc (gmap string value)).
Abbreviation environ := (gmap string string).

(** A dict display [{k1: v1, ..., kn: vn}]: later keys win. *)
Definition dict_of (kvs : list (string * value)) : dict :=
  foldl (λ d kv, <[kv.1 := kv.2]> d) ∅ kvs.

Definition of_optional (o : option string) : value :=
  match o with
  | Some s => VStr s
  | None => VNone
  end.

(** Truth value of an [Optional[str]]: [None] and [""] are false. *)
Definition truthy (o : option string) : bool :=
  match o with
  | Some (String _ _) => true
  | _ => false
  end.

(** ** Exceptions and the monad *)

Inductive exn :=
  | KeyError (k : string)
  | TypeError
  | AttributeError
  | Dangling (r : loc).

Inductive result (A : Type) :=
  | Ok (a : A) (σ : heap)
  | Raise (e : exn).
Arguments Ok {A} a σ.
Arguments Raise {A} e.

Definition M (A : Type) : Type := environ → heap → result A.

#[global] Instance M_ret : MRet M := λ A a _ σ, Ok a σ.
#[global] Instance M_bind : MBind M := λ A B f m env σ,
  match m env σ with
  | Ok a σ' => f a env σ'
  | Raise e => Raise e
  end.

Definition raise {A} (e : exn) : M A := λ _ _, Raise e.

(** [for x in xs: body(x)] *)
Fixpoint for_each {A} (xs : list A) (body : A → M unit) : M unit :=
  match xs with
  | [] => mret tt
  | x :: xs' => body x;; for_each xs' body
  end.

Module os.
(** [os.environ.get(key, None)] *)
Definition environ_get (key : string) : M (option string) :=
  λ env σ, Ok (env !! key) σ.

(** [os.environ.get(key, default)] with a string default *)
Definition environ_get_or (key dflt : string) : M string :=
  λ env σ, Ok (default dflt (env !! key)) σ.
End os.

(** ** Operations on dictionary objects *)

(** A dict display allocates a new object. *)
Definition new_dict (d : dict) : M value :=
  λ _ σ, let r := fresh (dom σ) in Ok (VDict r) (<[r := d]> σ).

(** [{**d}]: a new dict with the entries of [d]; nested objects are shared. *)
Definition dict_unpack (d : loc) : M loc :=
  λ _ σ,
    match σ !! d with
    | Some D => let r := fresh (dom σ) in Ok r (<[r := D]> σ)
    | None => Raise (Dangling d)
    end.

(** [v[k]] with a string key *)
Definition subscript (v : value) (k : string) : M value :=
  λ _ σ,
    match v with
    | VDict r =>
        match σ !! r with
        | Some D =>
            match D !! k with
            | Some x => Ok x σ
            | None => Raise (KeyError k)
            end
        | None => Raise (Dangling r)
        end
    | _ => Raise TypeError
    end.

(** [v[k] = x] with a string key *)
Definition store_subscript (v : value) (k : string) (x : value) : M unit :=
  λ _ σ,
    match v with
    | VDict r =>
        match σ !! r with
        | Some D => Ok tt (<[r := <[k := x]> D]> σ)
        | None => Raise (Dangling r)
        end
    | _ => Raise TypeError
    end.

(** [v.update(other)]: the entries of [other] are added to [v] and win over
    the ones [v] has. *)
Definition dict_update (v : value) (other : dict) : M unit :=
  λ _ σ,
    match v with
    | VDict r =>
        match σ !! r with
        | Some D => Ok tt (<[r := other ∪ D]> σ)
        | None => Raise (Dangling r)
        end
    | _ => Raise AttributeError
    end.

(** ** The module *)

Module cloudwatch_handlers.
(** The handler classes of [mwaa.logging.cloudwatch_handlers] that the
    module names. *)
Inductive handler_class :=
  | TaskLogHandler
  | DagProcessorManagerLogHandler
  | DagProcessingLogHandler
  | SubprocessLogHandler.
End cloudwatch_handlers.

Module logging.
(** [logging.getLevelName(logging.INFO)] *)
Definition INFO_name : string := "INFO".
End logging.

Definition SCHEDULER_LOGGER_NAME := "mwaa.scheduler".
Definition SCHEDULER_REQUIREMENTS_LOGGER_NAME := "mwaa.scheduler_requirements".
Definition TRIGGERER_LOGGER_NAME := "mwaa.triggerer".
Definition TRIGGERER_REQUIREMENTS_LOGGER_NAME := "mwaa.triggerer_requirements".
Definition WEBSERVER_LOGGER_NAME := "mwaa.webserver".
Definition WEBSERVER_REQUIREMENTS_LOGGER_NAME := "mwaa.webserver_requirements".
Definition WORKER_LOGGER_NAME := "mwaa.worker".
Definition WORKER_REQUIREMENTS_LOGGER_NAME := "mwaa.worker_requirements".

Definition MWAA_LOGGERS : list (string * string) :=
  [ ("scheduler", SCHEDULER_LOGGER_NAME);
    ("scheduler_requirements", SCHEDULER_REQUIREMENTS_LOGGER_NAME);
    ("triggerer", TRIGGERER_LOGGER_NAME);
    ("triggerer_requirements", TRIGGERER_REQUIREMENTS_LOGGER_NAME);
    ("webserver", WEBSERVER_LOGGER_NAME);
    ("webserver_requirements", WEBSERVER_REQUIREMENTS_LOGGER_NAME);
    ("worker", WORKER_LOGGER_NAME);
    ("worker_requirements", WORKER_REQUIREMENTS_LOGGER_NAME) ].

(** [table[k]] on a constant table of strings *)
Fixpoint table_get (table : list (string * string)) (k : string) : M string :=
  match table with
  | [] => raise (KeyError k)
  | (k', v) :: rest => if String.eqb k k' then mret v else table_get rest k
  end.

Definition _get_kms_key_arn : M (option string) :=
  os.environ_get "MWAA__CORE__KMS_KEY_ARN".

Definition _get_mwaa_logging_env_vars (source : string)
  : M (option string * string * bool) :=
  log_group_arn ← os.environ_get
    ("MWAA__LOGGING__AIRFLOW_" ++ upper source ++ "_LOG_GROUP_ARN");
  log_level ← os.environ_get_or
    ("MWAA__LOGGING__AIRFLOW_" ++ upper source ++ "_LOG_LEVEL")
    logging.INFO_name;
  logging_enabled ← os.environ_get_or
    ("MWAA__LOGGING__AIRFLOW_" ++ upper source ++ "_LOGS_ENABLED") "false";
  mret (log_group_arn, log_level, String.eqb (lower logging_enabled) "true").

(** ** Reading the environment and the store, without the monad *)

(** The three settings of a log source, as a function of the environment. *)
Definition logging_env_vars (source : string) (env : environ)
  : option string * string * bool :=
  ( env !! ("MWAA__LOGGING__AIRFLOW_" ++ upper source ++ "_LOG_GROUP_ARN"),
    default "INFO"
      (env !! ("MWAA__LOGGING__AIRFLOW_" ++ upper source ++ "_LOG_LEVEL")),
    String.eqb
      (lower (default "false"
         (env !! ("MWAA__LOGGING__AIRFLOW_" ++ upper source ++ "_LOGS_ENABLED"))))
      "true" ).

Definition log_group_arn_of (source : string) (env : environ) : option string :=
  (logging_env_vars source env).1.1.
Definition log_level_of (source : string) (env : environ) : string :=
  (logging_env_vars source env).1.2.
Definition logging_enabled_of (source : string) (env : environ) : bool :=
  (logging_env_vars source env).2.

(** The log sources [_configure] goes through, and the variables it reads. *)
Definition components : list string :=
  ["Worker"; "Scheduler"; "WebServer"; "Triggerer"].

Definition log_sources : list string := "task" :: "dagprocessor" :: components.

Definition source_vars (source : string) : list string :=
  [ "MWAA__LOGGING__AIRFLOW_" ++ upper source ++ "_LOG_GROUP_ARN";
    "MWAA__LOGGING__AIRFLOW_" ++ upper source ++ "_LOG_LEVEL";
    "MWAA__LOGGING__AIRFLOW_" ++ upper source ++ "_LOGS_ENABLED" ].

Definition mwaa_vars : list string :=
  "MWAA__CORE__KMS_KEY_ARN" :: (log_sources ≫= source_vars).

(** With HOME, which [os.path.expanduser] reads for a base log folder that
    starts with "~". *)
Definition consulted_vars : list string := "HOME" :: mwaa_vars.

(** All spellings of a string that differ only in the case of letters. *)
Fixpoint case_variants (s : string) : list string :=
  match s with
  | EmptyString => [EmptyString]
  | String c s' =>
      tl ← case_variants s';
      [String (ascii_lower c) tl; String (ascii_upper c) tl]
  end.

(** The dict [cfg[sec]], and the dict [cfg[sec][key]]. *)
Definition deref (σ : heap) (v : value) : option dict :=
  match v with
  | VDict r => σ !! r
  | _ => None
  end.

Definition section_of (σ : heap) (cfg : loc) (sec : string) : option dict :=
  D ← σ !! cfg; v ← D !! sec; deref σ v.

(** What [cfg] holds at a top-level key. *)
Definition top_of (σ : heap) (cfg : loc) (key : string) : option value :=
  D ← σ !! cfg; D !! key.

(** What [cfg[sec]] holds at [key]: a value, or a reference to an object. *)
Definition item_of (σ : heap) (cfg : loc) (sec key : string) : option value :=
  C ← section_of σ cfg sec; C !! key.

Definition entry_of (σ : heap) (cfg : loc) (sec key : string) : option dict :=
  v ← item_of σ cfg sec key; deref σ v.

(** The two kinds of statement [_configure] runs on the configuration:
    [LOGGING_CONFIG[sec][key] = {...}] and
    [LOGGING_CONFIG[sec][key].update({...})]. *)
Inductive stmt :=
  | SetEntry (sec key : string) (d : dict)
  | UpdateEntry (sec key : string) (d : dict).

Definition set_at (sec key : string) (s : stmt) : option dict :=
  match s with
  | SetEntry sec' key' d =>
      if decide (sec' = sec ∧ key' = key) then Some d else None
  | UpdateEntry _ _ _ => None
  end.

(** The dict the last assignment to [cfg[sec][key]] stores, if there is one. *)
Fixpoint last_set (sec key : string) (ws : list stmt) : option dict :=
  match ws with
  | [] => None
  | s :: ws' =>
      match last_set sec key ws' with
      | Some d => Some d
      | None => set_at sec key s
      end
  end.

(** What the updates of a list of statements make of a dict. *)
Fixpoint updates (ws : list stmt) (T : dict) : dict :=
  match ws with
  | [] => T
  | UpdateEntry _ _ d :: ws' => updates ws' (d ∪ T)
  | SetEntry _ _ _ :: ws' => updates ws' T
  end.

Definition stmt_keys (ws : list stmt) : list (string * string) :=
  ws ≫= λ s, match s with
             | SetEntry sec key _ => [(sec, key)]
             | UpdateEntry _ _ _ => []
             end.

Fixpoint table_lookup (table : list (string * string)) (k : string)
  : option string :=
  match table with
  | [] => None
  | (k', v) :: rest => if String.eqb k k' then Some v else table_lookup rest k
  end.

(** ** Invariants of the store while [_configure] runs

    [l] is the object [LOGGING_CONFIG] is bound to, [h] and [lg] are its
    "handlers" and "loggers" dicts and [t] is the "airflow.task" logger. *)
Section Invariants.
Variables l h lg t : loc.

Definition wf (σ : heap) : Prop :=
  (∃ L, σ !! l = Some L ∧ L !! "handlers" = Some (VDict h)
        ∧ L !! "loggers" = Some (VDict lg))
  ∧ is_Some (σ !! h)
  ∧ (∃ G, σ !! lg = Some G ∧ G !! "airflow.task" = Some (VDict t))
  ∧ is_Some (σ !! t).

(** The keys the lookups of the module go through. *)
Definition protected_keys : list string :=
  ["handlers"; "loggers"; "airflow.task"].

(** Objects only gain keys, and keep what the protected keys hold. *)
Definition grows (σ σ' : heap) : Prop :=
  ∀ o D, σ !! o = Some D →
    ∃ D', σ' !! o = Some D' ∧ dom D ⊆ dom D'
          ∧ ∀ k, k ∈ protected_keys → D' !! k = D !! k.

(** A statement that cannot fail on a well-formed store, whatever objects
    coincide. *)
Definition safe_stmt (s : stmt) : Prop :=
  match s with
  | SetEntry sec key _ =>
      (sec = "handlers" ∨ sec = "loggers") ∧ key ∉ protected_keys
  | UpdateEntry sec key d =>
      sec = "loggers" ∧ key = "airflow.task"
      ∧ ∀ k, k ∈ protected_keys → d !! k = None
  end.

(** A statement of the kind [_configure] runs: an assignment to a handler
    or to a logger other than "airflow.task", or an update of the latter. *)
Definition ok_stmt (s : stmt) : Prop :=
  match s with
  | SetEntry sec key _ =>
      sec = "handlers" ∨ (sec = "loggers" ∧ key ≠ "airflow.task")
  | UpdateEntry sec key _ => sec = "loggers" ∧ key = "airflow.task"
  end.

(** What an entry of a section holds after the run: a new object holding
    the dict of the last assignment, or what it held before. *)
Definition entry_post (σ σ' : heap) (old new : option value)
    (w : option dict) : Prop :=
  match w with
  | Some d => ∃ r, (r ∉ dom σ) ∧ new = Some (VDict r) ∧ σ' !! r = Some d
  | None => new = old
  end.

Definition section_loc (sec : string) (c : loc) : Prop :=
  (sec = "handlers" ∧ c = h) ∨ (sec = "loggers" ∧ c = lg).

Record post (σ σ' : heap) (ws : list stmt) : Prop := {
  post_frame : ∀ o, o ∈ dom σ → o ≠ h → o ≠ lg → o ≠ t → σ' !! o = σ !! o;
  post_dom : dom σ ⊆ dom σ';
  post_section : ∀ sec c C, section_loc sec c → σ !! c = Some C →
    ∃ C', σ' !! c = Some C'
          ∧ ∀ k, entry_post σ σ' (C !! k) (C' !! k) (last_set sec k ws);
  post_task : ∀ T, σ !! t = Some T → σ' !! t = Some (updates ws T)
}.
End Invariants.

Section Config.
Import cloudwatch_handlers.

(** What the module imports from Airflow, from [mwaa.utils] and from
    [os.path]: the store address of [DEFAULT_LOGGING_CONFIG], three
    settings that are strings, and three functions whose results are
    strings.  [os.path.expanduser] reads HOME when the path starts with "~":
    [expanduser] is the function given what HOME holds. *)
Variable DEFAULT_LOGGING_CONFIG : loc.
Variable BASE_LOG_FOLDER : string.
Variable DAG_PROCESSOR_MANAGER_LOG_LOCATION : string.
Variable PROCESSOR_FILENAME_TEMPLATE : string.
Variable qualified_name : handler_class → string.
Variable expanduser : option string → string → string.
Variable basename : string → string.

(** [os.path.expanduser(path)] *)
Definition os_path_expanduser (path : string) : M string :=
  λ env σ, Ok (expanduser (env !! "HOME") path) σ.

Section Globals.
(** The module-level name [LOGGING_CONFIG], bound once when the module
    is loaded. *)
Variable LOGGING_CONFIG : loc.

Definition _configure_task_logging : M unit :=
  '(log_group_arn, log_level, logging_enabled) ←
    _get_mwaa_logging_env_vars "task";
  if truthy log_group_arn then
    base_log_folder ← os_path_expanduser BASE_LOG_FOLDER;
    kms_key_arn ← _get_kms_key_arn;
    entry ← new_dict (dict_of
      [ ("class", VStr (qualified_name TaskLogHandler));
        ("formatter", VStr "airflow");
        ("filters", VList [VStr "mask_secrets"]);
        ("base_log_folder", VStr base_log_folder);
        ("log_group_arn", of_optional log_group_arn);
        ("kms_key_arn", of_optional kms_key_arn);
        ("enabled", VBool logging_enabled) ]);
    handlers ← subscript (VDict LOGGING_CONFIG) "handlers";
    store_subscript handlers "task" entry;;
    loggers ← subscript (VDict LOGGING_CONFIG) "loggers";
    task_logger ← subscript loggers "airflow.task";
    dict_update task_logger (dict_of [ ("level", VStr log_level) ])
  else mret tt.

Definition _configure_dag_processing_logging : M unit :=
  '(log_group_arn, log_level, logging_enabled) ←
    _get_mwaa_logging_env_vars "dagprocessor";
  if truthy log_group_arn then
    kms_key_arn ← _get_kms_key_arn;
    entry ← new_dict (dict_of
      [ ("class", VStr (qualified_name DagProcessorManagerLogHandler));
        ("formatter", VStr "airflow");
        ("log_group_arn", of_optional log_group_arn);
        ("kms_key_arn", of_optional kms_key_arn);
        ("stream_name", VStr (basename DAG_PROCESSOR_MANAGER_LOG_LOCATION));
        ("enabled", VBool logging_enabled) ]);
    handlers ← subscript (VDict LOGGING_CONFIG) "handlers";
    store_subscript handlers "processor_manager" entry;;
    entry ← new_dict (dict_of
      [ ("handlers", VList [VStr "processor_manager"]);
        ("level", VStr log_level);
        ("propagate", VBool false) ]);
    loggers ← subscript (VDict LOGGING_CONFIG) "loggers";
    store_subscript loggers "airflow.processor_manager" entry;;
    kms_key_arn ← _get_kms_key_arn;
    entry ← new_dict (dict_of
      [ ("class", VStr (qualified_name DagProcessingLogHandler));
        ("formatter", VStr "airflow");
        ("log_group_arn", of_optional log_group_arn);
        ("kms_key_arn", of_optional kms_key_arn);
        ("stream_name_template", VStr PROCESSOR_FILENAME_TEMPLATE);
        ("enabled", VBool logging_enabled) ]);
    handlers ← subscript (VDict LOGGING_CONFIG) "handlers";
    store_subscript handlers "processor" entry;;
    entry ← new_dict (dict_of
      [ ("handlers", VList [VStr "processor"]);
        ("level", VStr log_level);
        ("propagate", VBool false) ]);
    loggers ← subscript (VDict LOGGING_CONFIG) "loggers";
    store_subscript loggers "airflow.processor" entry
  else mret tt.

Definition _configure_subprocesses_logging
    (subprocess_name : string) (log_group_arn : option string)
    (log_level : string) (logging_enabled : bool) : M unit :=
  logger_name ← table_get MWAA_LOGGERS (lower subprocess_name);
  let handler_name := replace "." "_" logger_name in
  if truthy log_group_arn then
    kms_key_arn ← _get_kms_key_arn;
    entry ← new_dict (dict_of
      [ ("class", VStr (qualified_name SubprocessLogHandler));
        ("formatter", VStr "airflow");
        ("filters", VList [VStr "mask_secrets"]);
        ("log_group_arn", of_optional log_group_arn);
        ("kms_key_arn", of_optional kms_key_arn);
        ("stream_name_prefix", VStr (lower subprocess_name));
        ("logs_source", VStr subprocess_name);
        ("enabled", VBool logging_enabled) ]);
    handlers ← subscript (VDict LOGGING_CONFIG) "handlers";
    store_subscript handlers handler_name entry;;
    entry ← new_dict (dict_of
      [ ("handlers", VList [VStr handler_name]);
        ("level", VStr log_level);
        ("propagate", VBool false) ]);
    loggers ← subscript (VDict LOGGING_CONFIG) "loggers";
    store_subscript loggers logger_name entry
  else mret tt.

(** The body of the loop of [_configure]. *)
Definition _configure_component (comp : string) : M unit :=
  '(log_group_arn, log_level, logging_enabled) ←
    _get_mwaa_logging_env_vars comp;
  _configure_subprocesses_logging
    comp log_group_arn log_level logging_enabled;;
  _configure_subprocesses_logging
    (comp ++ "_requirements") log_group_arn log_level logging_enabled.

Definition _configure : M unit :=
  _configure_task_logging;;
  _configure_dag_processing_logging;;
  for_each ["Worker"; "Scheduler"; "WebServer"; "Triggerer"]
    _configure_component.

(** Statements, run. *)
Definition exec_stmt (s : stmt) : M unit :=
  match s with
  | SetEntry sec key d =>
      entry ← new_dict d;
      container ← subscript (VDict LOGGING_CONFIG) sec;
      store_subscript container key entry
  | UpdateEntry sec key d =>
      container ← subscript (VDict LOGGING_CONFIG) sec;
      entry ← subscript container key;
      dict_update entry d
  end.

Definition exec (ws : list stmt) : M unit := for_each ws exec_stmt.
End Globals.

(** Loading the module: [LOGGING_CONFIG = {**DEFAULT_LOGGING_CONFIG}], the
    definitions, and the call [_configure()] on the last line.  The result
    is the object [LOGGING_CONFIG] is bound to. *)
Definition module_body : M loc :=
  LOGGING_CONFIG ← dict_unpack DEFAULT_LOGGING_CONFIG;
  _configure LOGGING_CONFIG;;
  mret LOGGING_CONFIG.

(** ** The entries the module writes *)

Definition task_handler_entry (base_log_folder : string)
    (log_group_arn kms_key_arn : option string) (enabled : bool) : dict :=
  dict_of
    [ ("class", VStr (qualified_name TaskLogHandler));
      ("formatter", VStr "airflow");
      ("filters", VList [VStr "mask_secrets"]);
      ("base_log_folder", VStr base_log_folder);
      ("log_group_arn", of_optional log_group_arn);
      ("kms_key_arn", of_optional kms_key_arn);
      ("enabled", VBool enabled) ].

Definition processor_manager_handler_entry
    (log_group_arn kms_key_arn : option string) (enabled : bool) : dict :=
  dict_of
    [ ("class", VStr (qualified_name DagProcessorManagerLogHandler));
      ("formatter", VStr "airflow");
      ("log_group_arn", of_optional log_group_arn);
      ("kms_key_arn", of_optional kms_key_arn);
      ("stream_name", VStr (basename DAG_PROCESSOR_MANAGER_LOG_LOCATION));
      ("enabled", VBool enabled) ].

Definition processor_handler_entry
    (log_group_arn kms_key_arn : option string) (enabled : bool) : dict :=
  dict_of
    [ ("class", VStr (qualified_name DagProcessingLogHandler));
      ("formatter", VStr "airflow");
      ("log_group_arn", of_optional log_group_arn);
      ("kms_key_arn", of_optional kms_key_arn);
      ("stream_name_template", VStr PROCESSOR_FILENAME_TEMPLATE);
      ("enabled", VBool enabled) ].

Definition subprocess_handler_entry (subprocess_name : string)
    (log_group_arn kms_key_arn : option string) (enabled : bool) : dict :=
  dict_of
    [ ("class", VStr (qualified_name SubprocessLogHandler));
      ("formatter", VStr "airflow");
      ("filters", VList [VStr "mask_secrets"]);
      ("log_group_arn", of_optional log_group_arn);
      ("kms_key_arn", of_optional kms_key_arn);
      ("stream_name_prefix", VStr (lower subprocess_name));
      ("logs_source", VStr subprocess_name);
      ("enabled", VBool enabled) ].

Definition logger_entry (handler_name log_level : string) : dict :=
  dict_of
    [ ("handlers", VList [VStr handler_name]);
      ("level", VStr log_level);
      ("propagate", VBool false) ].

(** ** The statements each function runs, as a function of the environment *)

(** Every function runs its statements under [if log_group_arn:]. *)
Definition block (source : string) (env : environ) (ws : list stmt)
  : list stmt :=
  if truthy (log_group_arn_of source env) then ws else [].

Definition task_plan (env : environ) : list stmt :=
  block "task" env
    [ SetEntry "handlers" "task"
        (task_handler_entry (expanduser (env !! "HOME") BASE_LOG_FOLDER)
           (log_group_arn_of "task" env)
           (env !! "MWAA__CORE__KMS_KEY_ARN") (logging_enabled_of "task" env));
      UpdateEntry "loggers" "airflow.task"
        (dict_of [ ("level", VStr (log_level_of "task" env)) ]) ].

Definition dag_processing_plan (env : environ) : list stmt :=
  let arn := log_group_arn_of "dagprocessor" env in
  let level := log_level_of "dagprocessor" env in
  let enabled := logging_enabled_of "dagprocessor" env in
  let kms := env !! "MWAA__CORE__KMS_KEY_ARN" in
  block "dagprocessor" env
    [ SetEntry "handlers" "processor_manager"
        (processor_manager_handler_entry arn kms enabled);
      SetEntry "loggers" "airflow.processor_manager"
        (logger_entry "processor_manager" level);
      SetEntry "handlers" "processor" (processor_handler_entry arn kms enabled);
      SetEntry "loggers" "airflow.processor" (logger_entry "processor" level) ].

Definition subprocess_plan (subprocess_name logger_name : string)
    (source : string) (env : environ) : list stmt :=
  let handler_name := replace "." "_" logger_name in
  block source env
    [ SetEntry "handlers" handler_name
        (subprocess_handler_entry subprocess_name
           (log_group_arn_of source env) (env !! "MWAA__CORE__KMS_KEY_ARN")
           (logging_enabled_of source env));
      SetEntry "loggers" logger_name
        (logger_entry handler_name (log_level_of source env)) ].

Definition component_plan (env : environ) (comp : string) : list stmt :=
  subprocess_plan comp ("mwaa." ++ lower comp) comp env
  ++ subprocess_plan (comp ++ "_requirements")
       ("mwaa." ++ lower comp ++ "_requirements") comp env.

Definition plan (env : environ) : list stmt :=
  task_plan env ++ dag_processing_plan env ++ (components ≫= component_plan env).

(** The keys of "handlers" and of "loggers" the module can assign to. *)
Definition handler_names : list string :=
  [ "task"; "processor_manager"; "processor";
    "mwaa_worker"; "mwaa_worker_requirements";
    "mwaa_scheduler"; "mwaa_scheduler_requirements";
    "mwaa_webserver"; "mwaa_webserver_requirements";
    "mwaa_triggerer"; "mwaa_triggerer_requirements" ].

Definition new_logger_names : list string :=
  [ "airflow.processor_manager"; "airflow.processor";
    "mwaa.worker"; "mwaa.worker_requirements";
    "mwaa.scheduler"; "mwaa.scheduler_requirements";
    "mwaa.webserver"; "mwaa.webserver_requirements";
    "mwaa.triggerer"; "mwaa.triggerer_requirements" ].

Definition logger_names : list string := "airflow.task" :: new_logger_names.

(** Each log source with the handler and the logger it configures, and the
    handler entry as a function of the log group, the key and the flag. *)
Definition configured (env : environ)
  : list (string * string * string
          * (option string → option string → bool → dict)) :=
  [ ("task", "task", "airflow.task",
      task_handler_entry (expanduser (env !! "HOME") BASE_LOG_FOLDER));
    ("dagprocessor", "processor_manager", "airflow.processor_manager",
      processor_manager_handler_entry);
    ("dagprocessor", "processor", "airflow.processor", processor_handler_entry);
    ("Worker", "mwaa_worker", "mwaa.worker",
      subprocess_handler_entry "Worker");
    ("Worker", "mwaa_worker_requirements", "mwaa.worker_requirements",
      subprocess_handler_entry "Worker_requirements");
    ("Scheduler", "mwaa_scheduler", "mwaa.scheduler",
      subprocess_handler_entry "Scheduler");
    ("Scheduler", "mwaa_scheduler_requirements", "mwaa.scheduler_requirements",
      subprocess_handler_entry "Scheduler_requirements");
    ("WebServer", "mwaa_webserver", "mwaa.webserver",
      subprocess_handler_entry "WebServer");
    ("WebServer", "mwaa_webserver_requirements", "mwaa.webserver_requirements",
      subprocess_handler_entry "WebServer_requirements");
    ("Triggerer", "mwaa_triggerer", "mwaa.triggerer",
      subprocess_handler_entry "Triggerer");
    ("Triggerer", "mwaa_triggerer_requirements", "mwaa.triggerer_requirements",
      subprocess_handler_entry "Triggerer_requirements") ].

(** The statements run for one row of the table. *)
Definition row_plan (env : environ)
    (row : string * string * string
           * (option string → option string → bool → dict)) : list stmt :=
  let '(source, handler_name, logger_name, handler_entry) := row in
  block source env
    [ SetEntry "handlers" handler_name
        (handler_entry (log_group_arn_of source env)
           (env !! "MWAA__CORE__KMS_KEY_ARN") (logging_enabled_of source env));
      if String.eqb logger_name "airflow.task" then
        UpdateEntry "loggers" logger_name
          (dict_of [ ("level", VStr (log_level_of source env)) ])
      else
        SetEntry "loggers" logger_name
          (logger_entry handler_name (log_level_of source env)) ].

(** ** What the module expects of Airflow's default configuration

    [DEFAULT_LOGGING_CONFIG] has a "handlers" and a "loggers" dict, the
    latter with an "airflow.task" logger that is a dict.  [h], [lg] and [t]
    name the three objects. *)
Record airflow_shape (σ : heap) (h lg t : loc) : Prop := {
  shape_top : ∃ D, σ !! DEFAULT_LOGGING_CONFIG = Some D
                ∧ D !! "handlers" = Some (VDict h)
                ∧ D !! "loggers" = Some (VDict lg);
  shape_handlers : is_Some (σ !! h);
  shape_loggers : ∃ G, σ !! lg = Some G ∧ G !! "airflow.task" = Some (VDict t);
  shape_task : is_Some (σ !! t)
}.

(** Airflow writes the configuration as nested dict displays: the four
    objects are four different ones. *)
Definition airflow_default (σ : heap) (h lg t : loc) : Prop :=
  airflow_shape σ h lg t ∧ NoDup [DEFAULT_LOGGING_CONFIG; h; lg; t].

(** ** An instance: Airflow's default configuration *)

Definition example_qualified_name (c : handler_class) : string :=
  "mwaa.logging.cloudwatch_handlers."
  ++ match c with
     | TaskLogHandler => "TaskLogHandler"
     | DagProcessorManagerLogHandler => "DagProcessorManagerLogHandler"
     | DagProcessingLogHandler => "DagProcessingLogHandler"
     | SubprocessLogHandler => "SubprocessLogHandler"
     end.

(** [expanduser] on "~/..." paths with HOME set, the identity elsewhere. *)
Definition example_expanduser (home : option string) (path : string) : string :=
  match path, home with
  | String "~" (String "/" rest), Some dir => dir ++ "/" ++ rest
  | _, _ => path
  end.

(** The part of a path after its last "/". *)
Fixpoint example_basename_from (path component : string) : string :=
  match path with
  | EmptyString => component
  | String "/" rest => example_basename_from rest rest
  | String _ rest => example_basename_from rest component
  end.

Definition example_basename (path : string) : string :=
  example_basename_from path path.

Definition example_config : dict :=
  dict_of
    [ ("version", VInt 1); ("disable_existing_loggers", VBool false);
      ("formatters", VDict 2); ("filters", VDict 3);
      ("handlers", VDict 4); ("loggers", VDict 5); ("root", VDict 6) ].

Definition example_handlers : dict :=
  dict_of [ ("console", VDict 9); ("task", VDict 10); ("processor", VDict 11) ].

Definition example_loggers : dict :=
  dict_of
    [ ("airflow.processor", VDict 12); ("airflow.task", VDict 13);
      ("flask_appbuilder", VDict 14) ].

Definition example_task_logger : dict :=
  dict_of
    [ ("handlers", VList [VStr "task"]); ("level", VStr "INFO");
      ("propagate", VBool true); ("filters", VList [VStr "mask_secrets"]) ].

(** The store with [DEFAULT_LOGGING_CONFIG] at address 1, its "handlers" at
    4, its "loggers" at 5 and the "airflow.task" logger at 13. *)
Definition example_heap : heap :=
  list_to_map
    [ (1%positive, example_config);
      (2%positive, dict_of [ ("airflow", VDict 7) ]);
      (3%positive, dict_of [ ("mask_secrets", VDict 8) ]);
      (4%positive, example_handlers);
      (5%positive, example_loggers);
      (6%positive, dict_of
        [ ("handlers", VList [VStr "console"]); ("level", VStr "INFO");
          ("filters", VList [VStr "mask_secrets"]) ]);
      (7%positive, dict_of
        [ ("format", VStr "[%(asctime)s] %(levelname)s - %(message)s");
          ("class", VStr "airflow.utils.log.timezone_aware.TimezoneAware") ]);
      (8%positive, dict_of
        [ ("()", VStr "airflow.utils.log.secrets_masker.SecretsMasker") ]);
      (9%positive, dict_of
        [ ("class", VStr "airflow.utils.log.logging_mixin.RedirectStdHandler");
          ("formatter", VStr "airflow_coloured"); ("stream", VStr "sys.stdout");
          ("filters", VList [VStr "mask_secrets"]) ]);
      (10%positive, dict_of
        [ ("class", VStr "airflow.utils.log.file_task_handler.FileTaskHandler");
          ("formatter", VStr "airflow");
          ("base_log_folder", VStr "/usr/local/airflow/logs");
          ("filters", VList [VStr "mask_secrets"]) ]);
      (11%positive, dict_of
        [ ("class",
            VStr "airflow.utils.log.file_processor_handler.FileProcessorHandler");
          ("formatter", VStr "airflow");
          ("base_log_folder", VStr "/usr/local/airflow/logs/scheduler");
          ("filename_template", VStr "{{ filename }}.log");
          ("filters", VList [VStr "mask_secrets"]) ]);
      (12%positive, dict_of
        [ ("handlers", VList [VStr "processor"]); ("level", VStr "INFO");
          ("propagate", VBool true) ]);
      (13%positive, example_task_logger);
      (14%positive, dict_of
        [ ("handlers", VList [VStr "console"]); ("level", VStr "WARNING");
          ("propagate", VBool true) ]) ].

(** Task and DAG processing logs go to CloudWatch, worker logs are
    configured but switched off, the other components are not configured. *)
Definition example_environ : environ :=
  list_to_map
    [ ("HOME", "/usr/local/airflow");
      ("MWAA__CORE__KMS_KEY_ARN",
        "arn:aws:kms:us-west-2:123456789012:key/aaaa-bbbb");
      ("MWAA__LOGGING__AIRFLOW_TASK_LOG_GROUP_ARN",
        "arn:aws:logs:us-west-2:123456789012:log-group:airflow-env-Task");
      ("MWAA__LOGGING__AIRFLOW_TASK_LOG_LEVEL", "DEBUG");
      ("MWAA__LOGGING__AIRFLOW_TASK_LOGS_ENABLED", "True");
      ("MWAA__LOGGING__AIRFLOW_DAGPROCESSOR_LOG_GROUP_ARN",
        "arn:aws:logs:us-west-2:123456789012:log-group:airflow-env-DAGProcessing");
      ("MWAA__LOGGING__AIRFLOW_DAGPROCESSOR_LOGS_ENABLED", "true");
      ("MWAA__LOGGING__AIRFLOW_WORKER_LOG_GROUP_ARN",
        "arn:aws:logs:us-west-2:123456789012:log-group:airflow-env-Worker");
      ("MWAA__LOGGING__AIRFLOW_WORKER_LOGS_ENABLED", "false");
      ("MWAA__LOGGING__AIRFLOW_SCHEDULER_LOG_GROUP_ARN", "") ].

(** ** What a malformed default configuration makes the module raise *)

(** [LOGGING_CONFIG[sec][key] = ...] needs [LOGGING_CONFIG[sec]] to be there
    and to be a dict. *)
Definition section_error (sec : string) (o : option value) : option exn :=
  match o with
  | None => Some (KeyError sec)
  | Some (VDict _) => None
  | Some _ => Some TypeError
  end.

(** [loggers["airflow.task"].update(...)] needs the logger to be there and
    to be a dict. *)
Definition task_logger_error (o : option value) : option exn :=
  match o with
  | None => Some (KeyError "airflow.task")
  | Some (VDict _) => None
  | Some _ => Some AttributeError
  end.

(** * Proofs *)

(** ** The monad *)

Lemma bind_ok {A B} (m : M A) (f : A → M B) env σ a σ1 :
  m env σ = Ok a σ1 → (m ≫= f) env σ = f a env σ1.
Proof. intros E. unfold mbind, M_bind. by rewrite E. Qed.

Lemma bind_cong {A B} (m m' : M A) (f f' : A → M B) env σ :
  m env σ = m' env σ → (∀ a σ1, f a env σ1 = f' a env σ1) →
  (m ≫= f) env σ = (m' ≫= f') env σ.
Proof.
  intros Hm Hf. unfold mbind, M_bind. rewrite Hm.
  destruct (m' env σ); [apply Hf | done].
Qed.

Lemma for_each_app {A} (xs ys : list A) (body : A → M unit) env σ :
  for_each (xs ++ ys) body env σ = (for_each xs body;; for_each ys body) env σ.
Proof.
  revert σ. induction xs as [|x xs IH]; intros σ; simpl; [done|].
  unfold mbind, M_bind in *. destruct (body x env σ); [apply IH | done].
Qed.

(** Two computations built from the same operations, bound in the same
    order, are equal: go through the outcomes of the operations. *)
Ltac monad_eq :=
  unfold mbind, M_bind, mret, M_ret;
  repeat case_match; simplify_eq; try done;
  repeat match goal with u : unit |- _ => destruct u end; done.

(** ** Reading the environment *)

Lemma get_mwaa_logging_env_vars_eq source env σ :
  _get_mwaa_logging_env_vars source env σ = Ok (logging_env_vars source env) σ.
Proof. reflexivity. Qed.

Lemma get_kms_key_arn_eq env σ :
  _get_kms_key_arn env σ = Ok (env !! "MWAA__CORE__KMS_KEY_ARN") σ.
Proof. reflexivity. Qed.

Lemma logging_env_vars_eta source env :
  logging_env_vars source env
  = (log_group_arn_of source env, log_level_of source env,
     logging_enabled_of source env).
Proof. reflexivity. Qed.

Lemma table_get_lookup table k v env σ :
  table_lookup table k = Some v → table_get table k env σ = Ok v σ.
Proof.
  induction table as [|[k' v'] table IH]; simpl; [done|].
  destruct (String.eqb k k'); [by intros [= ->] | done].
Qed.

(** ** Each function runs its plan *)

Section Refinement.
Variable LOGGING_CONFIG : loc.

Lemma exec_app ws1 ws2 env σ :
  exec LOGGING_CONFIG (ws1 ++ ws2) env σ
  = (exec LOGGING_CONFIG ws1;; exec LOGGING_CONFIG ws2) env σ.
Proof. apply for_each_app. Qed.

Lemma exec_env ws env1 env2 σ :
  exec LOGGING_CONFIG ws env1 σ = exec LOGGING_CONFIG ws env2 σ.
Proof.
  revert σ. induction ws as [|s ws IH]; intros σ; [done|].
  unfold exec in *. simpl. unfold mbind, M_bind.
  assert (exec_stmt LOGGING_CONFIG s env1 σ = exec_stmt LOGGING_CONFIG s env2 σ)
    as -> by (by destruct s).
  destruct (exec_stmt LOGGING_CONFIG s env2 σ); [apply IH | done].
Qed.

Lemma configure_task_logging_plan env σ :
  _configure_task_logging LOGGING_CONFIG env σ
  = exec LOGGING_CONFIG (task_plan env) env σ.
Proof.
  unfold _configure_task_logging, task_plan.
  erewrite bind_ok by apply get_mwaa_logging_env_vars_eq.
  rewrite logging_env_vars_eta.
  unfold block. destruct (truthy (log_group_arn_of "task" env)); [|done].
  unfold os_path_expanduser at 1. erewrite bind_ok by reflexivity.
  erewrite bind_ok by apply get_kms_key_arn_eq.
  unfold exec, for_each, exec_stmt, task_handler_entry. monad_eq.
Qed.

Lemma configure_dag_processing_logging_plan env σ :
  _configure_dag_processing_logging LOGGING_CONFIG env σ
  = exec LOGGING_CONFIG (dag_processing_plan env) env σ.
Proof.
  unfold _configure_dag_processing_logging, dag_processing_plan.
  erewrite bind_ok by apply get_mwaa_logging_env_vars_eq.
  rewrite logging_env_vars_eta.
  unfold block. destruct (truthy (log_group_arn_of "dagprocessor" env)); [|done].
  erewrite bind_ok by apply get_kms_key_arn_eq.
  unfold exec, for_each, exec_stmt, processor_manager_handler_entry,
    processor_handler_entry, logger_entry, _get_kms_key_arn, os.environ_get.
  monad_eq.
Qed.

Lemma configure_subprocesses_logging_plan name logger_name source env σ :
  table_lookup MWAA_LOGGERS (lower name) = Some logger_name →
  _configure_subprocesses_logging LOGGING_CONFIG name
    (log_group_arn_of source env) (log_level_of source env)
    (logging_enabled_of source env) env σ
  = exec LOGGING_CONFIG (subprocess_plan name logger_name source env) env σ.
Proof.
  intros Hname. unfold _configure_subprocesses_logging, subprocess_plan.
  erewrite bind_ok by (apply table_get_lookup, Hname).
  unfold block. destruct (truthy (log_group_arn_of source env)); [|done].
  erewrite bind_ok by apply get_kms_key_arn_eq.
  unfold exec, for_each, exec_stmt, subprocess_handler_entry, logger_entry.
  monad_eq.
Qed.

Lemma components_loggers comp :
  comp ∈ components →
  table_lookup MWAA_LOGGERS (lower comp) = Some ("mwaa." ++ lower comp)
  ∧ table_lookup MWAA_LOGGERS (lower (comp ++ "_requirements"))
    = Some ("mwaa." ++ lower comp ++ "_requirements").
Proof.
  unfold components. rewrite !elem_of_cons, elem_of_nil.
  intros [->|[->|[->|[->|[]]]]]; split; reflexivity.
Qed.

Lemma configure_component_plan comp env σ :
  comp ∈ components →
  _configure_component LOGGING_CONFIG comp env σ
  = exec LOGGING_CONFIG (component_plan env comp) env σ.
Proof.
  intros [H1 H2]%components_loggers.
  unfold _configure_component, component_plan.
  erewrite bind_ok by apply get_mwaa_logging_env_vars_eq.
  rewrite logging_env_vars_eta, exec_app.
  apply bind_cong; [|intros _ σ1];
    by apply configure_subprocesses_logging_plan.
Qed.

Lemma for_each_plan (comps : list string) env σ :
  (∀ c, c ∈ comps → c ∈ components) →
  for_each comps (_configure_component LOGGING_CONFIG) env σ
  = exec LOGGING_CONFIG (comps ≫= component_plan env) env σ.
Proof.
  revert σ. induction comps as [|c comps IH]; intros σ Hin; [done|].
  simpl. rewrite exec_app. apply bind_cong.
  - apply configure_component_plan, Hin. left.
  - intros _ σ1. apply IH. intros c' Hc'. apply Hin. by right.
Qed.

Lemma configure_plan env σ :
  _configure LOGGING_CONFIG env σ = exec LOGGING_CONFIG (plan env) env σ.
Proof.
  unfold _configure, plan. rewrite exec_app.
  apply bind_cong; [apply configure_task_logging_plan | intros _ σ1].
  rewrite exec_app.
  apply bind_cong; [apply configure_dag_processing_logging_plan | intros _ σ2].
  by apply for_each_plan.
Qed.
End Refinement.

(** ** Statements on a well-formed store cannot fail *)

Section Safety.
Variables l h lg t : loc.

Lemma grows_refl σ : grows σ σ.
Proof. intros o D HD. by exists D. Qed.

Lemma grows_trans σ1 σ2 σ3 : grows σ1 σ2 → grows σ2 σ3 → grows σ1 σ3.
Proof.
  intros H12 H23 o D HD.
  destruct (H12 o D HD) as (D2 & HD2 & Hdom2 & Hk2).
  destruct (H23 o D2 HD2) as (D3 & HD3 & Hdom3 & Hk3).
  exists D3. split; [done|]. split; [set_solver|].
  intros k Hk. by rewrite Hk3, Hk2.
Qed.

Lemma grows_alloc (σ : heap) r d : σ !! r = None → grows σ (<[r := d]> σ).
Proof.
  intros Hr o D HD. exists D.
  rewrite lookup_insert_ne by congruence. done.
Qed.

Lemma grows_store (σ : heap) c (C : dict) key v :
  σ !! c = Some C → key ∉ protected_keys →
  grows σ (<[c := <[key := v]> C]> σ).
Proof.
  intros HC Hkey o D HD. destruct (decide (o = c)) as [->|Hne].
  - rewrite lookup_insert_eq. simplify_eq. eexists. split; [done|].
    split; [set_solver|].
    intros k Hk. apply lookup_insert_ne. by intros ->.
  - rewrite lookup_insert_ne by done. by exists D.
Qed.

Lemma grows_update (σ : heap) c (C d : dict) :
  σ !! c = Some C → (∀ k, k ∈ protected_keys → d !! k = None) →
  grows σ (<[c := d ∪ C]> σ).
Proof.
  intros HC Hd o D HD. destruct (decide (o = c)) as [->|Hne].
  - rewrite lookup_insert_eq. simplify_eq. eexists. split; [done|].
    split; [set_solver|].
    intros k Hk. by apply lookup_union_r, Hd.
  - rewrite lookup_insert_ne by done. by exists D.
Qed.

Lemma wf_grows σ σ' : wf l h lg t σ → grows σ σ' → wf l h lg t σ'.
Proof.
  intros ((L & HL & Lh & Llg) & [H HH] & (G & HG & Gt) & [T HT]) Hg.
  destruct (Hg _ _ HL) as (L' & HL' & _ & HkL).
  destruct (Hg _ _ HH) as (H' & HH' & _).
  destruct (Hg _ _ HG) as (G' & HG' & _ & HkG).
  destruct (Hg _ _ HT) as (T' & HT' & _).
  repeat split; eauto.
  - exists L'. rewrite !HkL by (unfold protected_keys; set_solver). done.
  - exists G'. rewrite !HkG by (unfold protected_keys; set_solver). done.
Qed.

Lemma fresh_lookup (σ : heap) : σ !! fresh (dom σ) = None.
Proof. apply not_elem_of_dom, is_fresh. Qed.

Lemma exec_stmt_safe env σ s :
  wf l h lg t σ → safe_stmt s →
  ∃ σ', exec_stmt l s env σ = Ok tt σ' ∧ grows σ σ'.
Proof.
  intros ((L & HL & Lh & Llg) & [H HH] & (G & HG & Gt) & [T HT]) Hs.
  pose proof (fresh_lookup σ) as Hr.
  destruct s as [sec key d|sec key d]; simpl in Hs.
  - destruct Hs as [Hsec Hkey].
    assert (∃ c C, L !! sec = Some (VDict c) ∧ σ !! c = Some C)
      as (c & C & Hc & HC) by (destruct Hsec as [->| ->]; eauto).
    exists (<[c := <[key := VDict (fresh (dom σ))]> C]> (<[fresh (dom σ) := d]> σ)).
    split.
    + unfold exec_stmt, new_dict, subscript, store_subscript, mbind, M_bind.
      rewrite lookup_insert_ne, HL, Hc by congruence.
      by rewrite lookup_insert_ne, HC by congruence.
    + eapply grows_trans; [by apply grows_alloc|].
      apply grows_store; [|done]. rewrite lookup_insert_ne by congruence. done.
  - destruct Hs as (-> & -> & Hd).
    exists (<[t := d ∪ T]> σ). split.
    + unfold exec_stmt, subscript, dict_update, mbind, M_bind.
      by rewrite HL, Llg, HG, Gt, HT.
    + by apply grows_update.
Qed.

Lemma exec_safe env ws σ :
  wf l h lg t σ → Forall safe_stmt ws →
  ∃ σ', exec l ws env σ = Ok tt σ' ∧ grows σ σ'.
Proof.
  intros Hwf Hws. revert σ Hwf.
  induction Hws as [|s ws Hs _ IH]; intros σ Hwf.
  - exists σ. split; [done | apply grows_refl].
  - destruct (exec_stmt_safe env σ s Hwf Hs) as (σ1 & E1 & G1).
    destruct (IH σ1 (wf_grows _ _ Hwf G1)) as (σ' & E' & G').
    exists σ'. split; [|by eapply grows_trans].
    unfold exec in *. simpl. by erewrite bind_ok.
Qed.
End Safety.

(** ** What a list of statements makes of the store *)

Lemma last_set_app sec key ws1 ws2 :
  last_set sec key (ws1 ++ ws2)
  = match last_set sec key ws2 with
    | Some d => Some d
    | None => last_set sec key ws1
    end.
Proof.
  induction ws1 as [|s ws1 IH]; simpl.
  - by destruct (last_set sec key ws2).
  - rewrite IH. by destruct (last_set sec key ws2).
Qed.

Lemma updates_app ws1 ws2 T :
  updates (ws1 ++ ws2) T = updates ws2 (updates ws1 T).
Proof.
  revert T. induction ws1 as [|[]]; intros T; simpl; auto.
Qed.

Section Exact.
Variables l h lg t : loc.
Hypothesis distinct : NoDup [l; h; lg; t].

Lemma distinct_locs : l ≠ h ∧ l ≠ lg ∧ l ≠ t ∧ h ≠ lg ∧ h ≠ t ∧ lg ≠ t.
Proof.
  pose proof distinct as Hd.
  rewrite !NoDup_cons, !not_elem_of_cons in Hd. tauto.
Qed.

Lemma post_nil σ : post h lg t σ σ [].
Proof.
  split; [done | done | | done].
  intros sec c C _ HC. exists C. split; [done|]. intros k. by simpl.
Qed.

Lemma post_app σ σ1 σ2 ws1 ws2 :
  wf l h lg t σ →
  post h lg t σ σ1 ws1 → post h lg t σ1 σ2 ws2 →
  post h lg t σ σ2 (ws1 ++ ws2).
Proof.
  intros (_ & Hh%elem_of_dom & (G & HG%elem_of_dom_2 & _) & Ht%elem_of_dom)
    [F1 D1 S1 T1] [F2 D2 S2 T2].
  split.
  - intros o Ho ? ? ?. rewrite F2, F1 by set_solver. done.
  - set_solver.
  - intros sec c C Hc HC.
    destruct (S1 sec c C Hc HC) as (C1 & HC1 & E1).
    destruct (S2 sec c C1 Hc HC1) as (C2 & HC2 & E2).
    exists C2. split; [done|]. intros k.
    specialize (E1 k). specialize (E2 k). rewrite last_set_app.
    destruct (last_set sec k ws2) as [d2|]; simpl in *.
    + destruct E2 as (r & Hr & ? & ?). exists r. set_solver.
    + rewrite E2. destruct (last_set sec k ws1) as [d1|]; simpl in *; [|done].
      destruct E1 as (r & Hr & ? & Hd). exists r. split; [done|]. split; [done|].
      rewrite F2; [done| by apply elem_of_dom_2 in Hd |..];
        intros ->; contradiction.
  - intros T HT. rewrite updates_app. by apply T2, T1.
Qed.

Lemma exec_stmt_post env σ s :
  wf l h lg t σ → ok_stmt s →
  ∃ σ', exec_stmt l s env σ = Ok tt σ' ∧ wf l h lg t σ'
        ∧ post h lg t σ σ' [s].
Proof.
  intros ((L & HL & Lh & Llg) & [H HH] & (G & HG & Gt) & [T HT]) Hs.
  destruct distinct_locs as (Hlh & Hllg & Hlt & Hhlg & Hht & Hlgt).
  pose proof (fresh_lookup σ) as Hr. set (r := fresh (dom σ)) in *.
  destruct s as [sec key d|sec key d]; simpl in Hs.
  - assert (∃ c C, section_loc h lg sec c ∧ L !! sec = Some (VDict c)
                   ∧ σ !! c = Some C ∧ c ≠ l ∧ c ≠ t
                   ∧ (c = lg → key ≠ "airflow.task"))
      as (c & C & Hsc & Hc & HC & Hcl & Hct & Hkey).
    { destruct Hs as [->|[-> ?]]; [exists h, H | exists lg, G];
        unfold section_loc; naive_solver. }
    exists (<[c := <[key := VDict r]> C]> (<[r := d]> σ)).
    split; [|split].
    + unfold exec_stmt, new_dict, subscript, store_subscript, mbind, M_bind.
      fold r. rewrite lookup_insert_ne, HL, Hc by congruence.
      by rewrite lookup_insert_ne, HC by congruence.
    + repeat split.
      * exists L. by rewrite !lookup_insert_ne by congruence.
      * destruct (decide (c = h)) as [->|];
          [rewrite lookup_insert_eq; eauto|].
        rewrite !lookup_insert_ne by congruence. eauto.
      * destruct (decide (c = lg)) as [->|].
        -- eexists. rewrite lookup_insert_eq. split; [done|].
           simplify_eq. rewrite lookup_insert_ne; [done|]. by apply Hkey.
        -- exists G. by rewrite !lookup_insert_ne by congruence.
      * rewrite !lookup_insert_ne by congruence. eauto.
    + split.
      * intros o Ho%elem_of_dom ? ? ?.
        rewrite !lookup_insert_ne; [done|..]; destruct Hsc as [[_ ->]|[_ ->]];
          try congruence; intros <-; rewrite Hr in Ho; by destruct Ho.
      * rewrite !dom_insert_L. intros o Ho. rewrite !elem_of_union. auto.
      * intros sec' c' C' Hsc' HC'.
        destruct (decide (c' = c)) as [->|Hne].
        -- assert (sec' = sec) as ->
             by (destruct Hsc as [[-> ->]|[-> ->]], Hsc' as [[-> ?]|[-> ?]];
                 congruence).
           simplify_eq. eexists. rewrite lookup_insert_eq. split; [done|].
           intros k. simpl. case_decide as Hk.
           ++ destruct Hk as [_ ->]. exists r. split; [by apply not_elem_of_dom|].
              rewrite lookup_insert_eq. split; [done|].
              rewrite lookup_insert_ne, lookup_insert_eq by congruence. done.
           ++ simpl. apply lookup_insert_ne. intros ->. by apply Hk.
        -- exists C'. split.
           { rewrite !lookup_insert_ne; [done|congruence..]. }
           intros k. simpl. rewrite decide_False; [done|].
           intros [-> _].
           destruct Hsc as [[? ->]|[? ->]], Hsc' as [[? ->]|[? ->]]; congruence.
      * intros T' HT'. simpl. rewrite !lookup_insert_ne by congruence. done.
  - destruct Hs as [-> ->].
    exists (<[t := d ∪ T]> σ). split; [|split].
    + unfold exec_stmt, subscript, dict_update, mbind, M_bind.
      by rewrite HL, Llg, HG, Gt, HT.
    + repeat split.
      * exists L. by rewrite lookup_insert_ne by congruence.
      * rewrite lookup_insert_ne by congruence. eauto.
      * exists G. by rewrite lookup_insert_ne by congruence.
      * rewrite lookup_insert_eq. eauto.
    + split.
      * intros o _ ? ? ?. by rewrite lookup_insert_ne by congruence.
      * rewrite dom_insert_L. set_solver.
      * intros sec' c' C' Hsc' HC'. exists C'. split; [|done].
        rewrite lookup_insert_ne; [done|].
        destruct Hsc' as [[? ->]|[? ->]]; congruence.
      * intros T' HT'. simpl. rewrite lookup_insert_eq. congruence.
Qed.

Lemma exec_post env ws σ :
  wf l h lg t σ → Forall ok_stmt ws →
  ∃ σ', exec l ws env σ = Ok tt σ' ∧ wf l h lg t σ' ∧ post h lg t σ σ' ws.
Proof.
  intros Hwf Hws. revert σ Hwf.
  induction Hws as [|s ws Hs _ IH]; intros σ Hwf.
  - exists σ. split; [done|]. split; [done | apply post_nil].
  - destruct (exec_stmt_post env σ s Hwf Hs) as (σ1 & E1 & Hwf1 & P1).
    destruct (IH σ1 Hwf1) as (σ' & E' & Hwf' & P').
    exists σ'. split; [|split; [done|]].
    + unfold exec in *. simpl. by erewrite bind_ok.
    + by apply (post_app σ σ1 σ' [s] ws).
Qed.
End Exact.

(** ** The plan of [_configure] *)

Lemma plan_unfold env :
  plan env
  = (task_plan env ++ dag_processing_plan env
    ++ (subprocess_plan "Worker" "mwaa.worker" "Worker" env
        ++ subprocess_plan "Worker_requirements" "mwaa.worker_requirements"
             "Worker" env)
    ++ (subprocess_plan "Scheduler" "mwaa.scheduler" "Scheduler" env
        ++ subprocess_plan "Scheduler_requirements"
             "mwaa.scheduler_requirements" "Scheduler" env)
    ++ (subprocess_plan "WebServer" "mwaa.webserver" "WebServer" env
        ++ subprocess_plan "WebServer_requirements"
             "mwaa.webserver_requirements" "WebServer" env)
    ++ (subprocess_plan "Triggerer" "mwaa.triggerer" "Triggerer" env
        ++ subprocess_plan "Triggerer_requirements"
             "mwaa.triggerer_requirements" "Triggerer" env)
    ++ [])%list.
Proof. reflexivity. Qed.

Lemma elem_of_block s source env ws :
  s ∈ block source env ws ↔ truthy (log_group_arn_of source env) = true ∧ s ∈ ws.
Proof.
  unfold block. destruct (truthy _).
  - split; [auto | by intros [_ ?]].
  - rewrite elem_of_nil. split; [done | by intros [? _]].
Qed.

Lemma Forall_block (P : stmt → Prop) source env ws :
  Forall P ws → Forall P (block source env ws).
Proof. unfold block. by destruct (truthy _). Qed.

Lemma plan_ok env : Forall ok_stmt (plan env).
Proof.
  rewrite plan_unfold.
  repeat (apply Forall_app; split); try apply Forall_nil_2;
    apply Forall_block; repeat apply Forall_cons_2; try apply Forall_nil_2;
    simpl; first [by left | by right | done].
Qed.

Lemma plan_safe env : Forall safe_stmt (plan env).
Proof.
  rewrite plan_unfold.
  repeat (apply Forall_app; split); try apply Forall_nil_2;
    apply Forall_block; repeat apply Forall_cons_2; try apply Forall_nil_2;
    simpl; unfold protected_keys.
  all: try (split; [by (left + right)|];
            rewrite !not_elem_of_cons; repeat split; (done || apply not_elem_of_nil)).
  split; [done|]. split; [done|].
  intros k. rewrite !elem_of_cons, elem_of_nil.
  intros [->|[->|[->|[]]]]; reflexivity.
Qed.

(** The keys the plan can assign to, in the order of the statements. *)
Lemma stmt_keys_app ws1 ws2 :
  stmt_keys (ws1 ++ ws2) = (stmt_keys ws1 ++ stmt_keys ws2)%list.
Proof. apply bind_app. Qed.

Lemma stmt_keys_block source env ws ks :
  stmt_keys ws = ks → stmt_keys (block source env ws) `sublist_of` ks.
Proof.
  intros <-. unfold block. destruct (truthy _); [done | apply sublist_nil_l].
Qed.

Lemma plan_keys_NoDup env : NoDup (stmt_keys (plan env)).
Proof.
  apply (sublist_NoDup _
    ([("handlers", "task")]
     ++ [("handlers", "processor_manager");
         ("loggers", "airflow.processor_manager");
         ("handlers", "processor"); ("loggers", "airflow.processor")]
     ++ ([("handlers", "mwaa_worker"); ("loggers", "mwaa.worker")]
         ++ [("handlers", "mwaa_worker_requirements");
             ("loggers", "mwaa.worker_requirements")])
     ++ ([("handlers", "mwaa_scheduler"); ("loggers", "mwaa.scheduler")]
         ++ [("handlers", "mwaa_scheduler_requirements");
             ("loggers", "mwaa.scheduler_requirements")])
     ++ ([("handlers", "mwaa_webserver"); ("loggers", "mwaa.webserver")]
         ++ [("handlers", "mwaa_webserver_requirements");
             ("loggers", "mwaa.webserver_requirements")])
     ++ ([("handlers", "mwaa_triggerer"); ("loggers", "mwaa.triggerer")]
         ++ [("handlers", "mwaa_triggerer_requirements");
             ("loggers", "mwaa.triggerer_requirements")])
     ++ [])%list).
  - simpl.
    repeat (apply NoDup_cons_2;
            [intros Hin;
             repeat (apply elem_of_cons in Hin as [Hin|Hin]; [discriminate|]);
             by apply elem_of_nil in Hin|]).
    apply NoDup_nil_2.
  - rewrite plan_unfold, !stmt_keys_app.
    repeat apply sublist_app;
      first [by apply stmt_keys_block | apply sublist_nil_l].
Qed.

Lemma last_set_elem sec key d ws :
  last_set sec key ws = Some d → SetEntry sec key d ∈ ws.
Proof.
  induction ws as [|s ws IH]; simpl; [done|].
  destruct (last_set sec key ws) as [d'|].
  - intros [= ->]. right. by apply IH.
  - destruct s as [sec' key' d'|]; simpl; [|done].
    case_decide as Hk; [|done]. destruct Hk as [-> ->].
    intros [= ->]. left.
Qed.

Lemma elem_stmt_keys sec key d ws :
  SetEntry sec key d ∈ ws → (sec, key) ∈ stmt_keys ws.
Proof.
  intros Hin. unfold stmt_keys. apply list_elem_of_bind.
  exists (SetEntry sec key d). split; [left | done].
Qed.

Lemma last_set_unique sec key d ws :
  NoDup (stmt_keys ws) → SetEntry sec key d ∈ ws →
  last_set sec key ws = Some d.
Proof.
  induction ws as [|s ws IH]; [by rewrite elem_of_nil|].
  change (s :: ws) with ([s] ++ ws)%list. rewrite stmt_keys_app.
  intros [_ [Hdisj Hnd]]%NoDup_app [<-|Hin]%elem_of_cons; simpl.
  - destruct (last_set sec key ws) as [d'|] eqn:E.
    + apply last_set_elem, elem_stmt_keys in E.
      destruct (Hdisj (sec, key)); [left | done].
    + by rewrite decide_True.
  - by rewrite (IH Hnd Hin).
Qed.

Lemma last_set_None sec key ws :
  (∀ d, SetEntry sec key d ∉ ws) → last_set sec key ws = None.
Proof.
  intros Hnot. destruct (last_set sec key ws) as [d|] eqn:E; [|done].
  by apply last_set_elem, Hnot in E.
Qed.

Lemma updates_task_plan env T :
  updates (task_plan env) T
  = if truthy (log_group_arn_of "task" env)
    then dict_of [ ("level", VStr (log_level_of "task" env)) ] ∪ T
    else T.
Proof. unfold task_plan, block. by destruct (truthy _). Qed.

Lemma updates_dag_processing_plan env T :
  updates (dag_processing_plan env) T = T.
Proof. unfold dag_processing_plan, block. by destruct (truthy _). Qed.

Lemma updates_subprocess_plan name logger_name source env T :
  updates (subprocess_plan name logger_name source env) T = T.
Proof. unfold subprocess_plan, block. by destruct (truthy _). Qed.

Lemma plan_updates env T :
  updates (plan env) T
  = if truthy (log_group_arn_of "task" env)
    then dict_of [ ("level", VStr (log_level_of "task" env)) ] ∪ T
    else T.
Proof.
  rewrite plan_unfold, !updates_app, !updates_subprocess_plan.
  rewrite updates_dag_processing_plan. apply updates_task_plan.
Qed.

(** ** The table of configured sources and the plan *)

Lemma block_app source env ws1 ws2 :
  block source env (ws1 ++ ws2)
  = (block source env ws1 ++ block source env ws2)%list.
Proof. unfold block. by destruct (truthy _). Qed.

(** The plan goes through the table, row by row. *)
Lemma plan_rows env : plan env = configured env ≫= row_plan env.
Proof.
  rewrite plan_unfold. unfold dag_processing_plan. cbv zeta.
  match goal with
  | |- context [block "dagprocessor" env [?a; ?b; ?c; ?d]] =>
      change [a; b; c; d] with ([a; b] ++ [c; d])%list
  end.
  rewrite block_app, <- !app_assoc. reflexivity.
Qed.

Lemma elem_of_plan env s :
  s ∈ plan env ↔ ∃ row, row ∈ configured env ∧ s ∈ row_plan env row.
Proof.
  rewrite plan_rows, list_elem_of_bind. split; intros (row & ? & ?); eauto.
Qed.

Lemma plan_sets_handler env src hk lk mk :
  (src, hk, lk, mk) ∈ configured env →
  truthy (log_group_arn_of src env) = true →
  SetEntry "handlers" hk
    (mk (log_group_arn_of src env) (env !! "MWAA__CORE__KMS_KEY_ARN")
        (logging_enabled_of src env)) ∈ plan env.
Proof.
  intros Hrow Ht. apply elem_of_plan. eexists. split; [exact Hrow|].
  apply elem_of_block. split; [exact Ht | left].
Qed.

Lemma plan_sets_logger env src hk lk mk :
  (src, hk, lk, mk) ∈ configured env → lk ≠ "airflow.task" →
  truthy (log_group_arn_of src env) = true →
  SetEntry "loggers" lk (logger_entry hk (log_level_of src env)) ∈ plan env.
Proof.
  intros Hrow Hlk%String.eqb_neq Ht.
  apply elem_of_plan. eexists. split; [exact Hrow|].
  apply elem_of_block. split; [exact Ht|]. right. rewrite Hlk. left.
Qed.

Lemma plan_set_inv env sec k d :
  SetEntry sec k d ∈ plan env →
  ∃ src hk lk mk,
    (src, hk, lk, mk) ∈ configured env
    ∧ truthy (log_group_arn_of src env) = true
    ∧ ((sec = "handlers" ∧ k = hk
        ∧ d = mk (log_group_arn_of src env) (env !! "MWAA__CORE__KMS_KEY_ARN")
                 (logging_enabled_of src env))
       ∨ (sec = "loggers" ∧ k = lk ∧ lk ≠ "airflow.task"
          ∧ d = logger_entry hk (log_level_of src env))).
Proof.
  intros ([[[src hk] lk] mk] & Hrow & Hin)%elem_of_plan.
  exists src, hk, lk, mk. split; [done|].
  apply elem_of_block in Hin as [Ht Hin]. split; [done|].
  apply elem_of_cons in Hin as [Hin|Hin]; [left; by simplify_eq|].
  apply list_elem_of_singleton in Hin. right.
  destruct (String.eqb lk "airflow.task") eqn:E; [done|].
  apply String.eqb_neq in E. by simplify_eq.
Qed.

Ltac in_configured H :=
  unfold configured in H;
  repeat (apply elem_of_cons in H as [H|H]);
  try (by apply elem_of_nil in H);
  simplify_eq.

Lemma configured_names env src hk lk mk :
  (src, hk, lk, mk) ∈ configured env →
  src ∈ log_sources ∧ hk ∈ handler_names ∧ lk ∈ logger_names.
Proof.
  intros Hrow. in_configured Hrow; repeat split; solve [repeat constructor].
Qed.

Lemma configured_handler_inj env src1 hk lk1 mk1 src2 lk2 mk2 :
  (src1, hk, lk1, mk1) ∈ configured env → (src2, hk, lk2, mk2) ∈ configured env →
  src1 = src2 ∧ lk1 = lk2 ∧ mk1 = mk2.
Proof.
  intros H1 H2. in_configured H1; in_configured H2; done.
Qed.

Lemma configured_logger_inj env src1 hk1 lk mk1 src2 hk2 mk2 :
  (src1, hk1, lk, mk1) ∈ configured env → (src2, hk2, lk, mk2) ∈ configured env →
  src1 = src2 ∧ hk1 = hk2 ∧ mk1 = mk2.
Proof.
  intros H1 H2. in_configured H1; in_configured H2; done.
Qed.

(** ** Loading the module *)

Lemma truthy_nonempty (o : option string) :
  truthy o = true ↔ ∃ a, o = Some a ∧ a ≠ "".
Proof.
  destruct o as [[|c a]|]; simpl; split; try done.
  - by intros (a & [= <-] & ?).
  - intros _. by eexists.
  - by intros (a & ? & ?).
Qed.

Lemma truthy_false (o : option string) :
  truthy o = false ↔ o = None ∨ o = Some "".
Proof. destruct o as [[|c a]|]; simpl; split; intros; destruct_or?; auto; done. Qed.

Lemma wf_of_shape σ0 h lg t D0 :
  airflow_shape σ0 h lg t → σ0 !! DEFAULT_LOGGING_CONFIG = Some D0 →
  wf (fresh (dom σ0)) h lg t (<[fresh (dom σ0) := D0]> σ0).
Proof.
  intros [(D & HD & Dh & Dlg) [H HH] (G & HG & Gt) [T HT]] HD0.
  assert (D = D0) as -> by congruence.
  pose proof (fresh_lookup σ0) as Hl.
  repeat split.
  - exists D0. by rewrite lookup_insert_eq.
  - exists H. rewrite lookup_insert_ne by congruence. done.
  - exists G. rewrite lookup_insert_ne by congruence. done.
  - exists T. rewrite lookup_insert_ne by congruence. done.
Qed.

Lemma module_body_unfold env σ0 D0 :
  σ0 !! DEFAULT_LOGGING_CONFIG = Some D0 →
  module_body env σ0
  = match exec (fresh (dom σ0)) (plan env) env (<[fresh (dom σ0) := D0]> σ0) with
    | Ok _ σ' => Ok (fresh (dom σ0)) σ'
    | Raise e => Raise e
    end.
Proof.
  intros HD. unfold module_body, dict_unpack, mbind, M_bind.
  rewrite HD, configure_plan. done.
Qed.

(** With no log group set anywhere, nothing runs. *)
Lemma plan_skip env :
  (∀ source, source ∈ log_sources →
     truthy (log_group_arn_of source env) = false) →
  plan env = [].
Proof.
  intros Hoff. rewrite plan_unfold.
  unfold task_plan, dag_processing_plan, subprocess_plan, block. cbv zeta.
  rewrite !Hoff by (unfold log_sources, components; solve [repeat constructor]).
  done.
Qed.

(** The store after the module is loaded, next to the store before. *)
Lemma module_body_spec env σ0 h lg t D0 H0 G0 T0 :
  airflow_default σ0 h lg t →
  σ0 !! DEFAULT_LOGGING_CONFIG = Some D0 → σ0 !! h = Some H0 →
  σ0 !! lg = Some G0 → σ0 !! t = Some T0 →
  ∃ l σ' H' G',
    module_body env σ0 = Ok l σ' ∧ (l ∉ dom σ0)
    ∧ σ' !! l = Some D0 ∧ σ' !! h = Some H' ∧ σ' !! lg = Some G'
    ∧ σ' !! t = Some (updates (plan env) T0)
    ∧ (∀ o, o ∈ dom σ0 → o ≠ h → o ≠ lg → o ≠ t → σ' !! o = σ0 !! o)
    ∧ (∀ k, entry_post σ0 σ' (H0 !! k) (H' !! k)
              (last_set "handlers" k (plan env)))
    ∧ (∀ k, entry_post σ0 σ' (G0 !! k) (G' !! k)
              (last_set "loggers" k (plan env))).
Proof.
  intros [Hshape Hnd] HD HH HG HT.
  pose proof (fresh_lookup σ0) as Hl. set (l := fresh (dom σ0)) in *.
  assert (NoDup [l; h; lg; t]) as Hnd'.
  { apply NoDup_cons in Hnd as [_ Hnd]. apply NoDup_cons. split; [|done].
    rewrite !not_elem_of_cons. repeat split; try apply not_elem_of_nil;
      congruence. }
  destruct (distinct_locs _ _ _ _ Hnd') as (Hlh & Hllg & Hlt & _).
  destruct (exec_post l h lg t Hnd' env (plan env) (<[l := D0]> σ0))
    as (σ' & E & Hwf & [F D S U]);
    [by apply wf_of_shape | apply plan_ok |].
  assert (∀ r, r ∉ dom (<[l := D0]> σ0) → r ∉ dom σ0) as Hnew.
  { intros r. rewrite dom_insert_L, not_elem_of_union. tauto. }
  destruct (S "handlers" h H0) as (H' & HH' & EH);
    [by left | by rewrite lookup_insert_ne |].
  destruct (S "loggers" lg G0) as (G' & HG' & EG);
    [by right | by rewrite lookup_insert_ne |].
  exists l, σ', H', G'. split; [|split; [by apply not_elem_of_dom|]].
  { rewrite (module_body_unfold env σ0 D0 HD). fold l. by rewrite E. }
  split. { rewrite F, lookup_insert_eq; [done| |done..].
           rewrite dom_insert_L. apply elem_of_union_l, elem_of_singleton. done. }
  split; [done|]. split; [done|].
  split. { apply U. by rewrite lookup_insert_ne. }
  split.
  { intros o Ho ? ? ?. rewrite F; try done.
    - apply lookup_insert_ne. intros <-. by apply not_elem_of_dom in Hl.
    - rewrite dom_insert_L. by apply elem_of_union_r. }
  split; intros k; [specialize (EH k) | specialize (EG k)];
    (destruct (last_set _ k (plan env)); simpl in *; [|done]).
  - destruct EH as (r & ? & ? & ?). exists r. auto.
  - destruct EG as (r & ? & ? & ?). exists r. auto.
Qed.

(** Reading the configuration. *)
Lemma item_of_eq (σ : heap) cfg sec key c (L C : dict) :
  σ !! cfg = Some L → L !! sec = Some (VDict c) → σ !! c = Some C →
  item_of σ cfg sec key = C !! key.
Proof.
  intros HL Hc HC. unfold item_of, section_of. rewrite HL. simpl.
  rewrite Hc. simpl. by rewrite HC.
Qed.

Lemma entry_of_eq (σ : heap) cfg sec key c r (L C : dict) :
  σ !! cfg = Some L → L !! sec = Some (VDict c) → σ !! c = Some C →
  C !! key = Some (VDict r) → entry_of σ cfg sec key = σ !! r.
Proof.
  intros HL Hc HC Hr. unfold entry_of.
  rewrite (item_of_eq σ cfg sec key c L C), Hr by done. done.
Qed.

(** What the plan leaves in a section, row by row of the table. *)
Lemma last_set_handler env src hk lk mk :
  (src, hk, lk, mk) ∈ configured env →
  last_set "handlers" hk (plan env)
  = if truthy (log_group_arn_of src env)
    then Some (mk (log_group_arn_of src env) (env !! "MWAA__CORE__KMS_KEY_ARN")
                  (logging_enabled_of src env))
    else None.
Proof.
  intros Hrow. destruct (truthy _) eqn:Ht.
  - apply last_set_unique; [apply plan_keys_NoDup|].
    by eapply plan_sets_handler.
  - apply last_set_None. intros d Hin.
    apply plan_set_inv in Hin
      as (src' & hk' & lk' & mk' & Hrow' & Ht' & [(_ & <- & _)|(? & _)]);
      [|done].
    destruct (configured_handler_inj _ _ _ _ _ _ _ _ Hrow Hrow') as (-> & _).
    congruence.
Qed.

Lemma last_set_logger env src hk lk mk :
  (src, hk, lk, mk) ∈ configured env →
  last_set "loggers" lk (plan env)
  = if truthy (log_group_arn_of src env) && negb (String.eqb lk "airflow.task")
    then Some (logger_entry hk (log_level_of src env))
    else None.
Proof.
  intros Hrow.
  destruct (truthy _) eqn:Ht, (String.eqb lk "airflow.task") eqn:Hlk; simpl.
  2: { apply String.eqb_neq in Hlk.
       apply last_set_unique; [apply plan_keys_NoDup|].
       by eapply plan_sets_logger. }
  all: apply last_set_None; intros d Hin;
    apply plan_set_inv in Hin
      as (src' & hk' & lk' & mk' & Hrow' & Ht' & [(? & _)|(_ & <- & Hne & _)]);
    [done|].
  - by apply String.eqb_eq in Hlk.
  - destruct (configured_logger_inj _ _ _ _ _ _ _ _ Hrow Hrow') as (-> & _).
    congruence.
  - destruct (configured_logger_inj _ _ _ _ _ _ _ _ Hrow Hrow') as (-> & _).
    congruence.
Qed.

Lemma last_set_other_handler env k :
  k ∉ handler_names → last_set "handlers" k (plan env) = None.
Proof.
  intros Hk. apply last_set_None. intros d Hin.
  apply plan_set_inv in Hin
    as (src & hk & lk & mk & Hrow & _ & [(_ & <- & _)|(? & _)]); [|done].
  by apply configured_names in Hrow as (_ & ? & _).
Qed.

Lemma last_set_other_logger env k :
  k ∉ new_logger_names → last_set "loggers" k (plan env) = None.
Proof.
  intros Hk. apply last_set_None. intros d Hin.
  apply plan_set_inv in Hin
    as (src & hk & lk & mk & Hrow & _ & [(? & _)|(_ & <- & Hne & _)]); [done|].
  apply configured_names in Hrow as (_ & _ & Hlk).
  unfold logger_names in Hlk. apply elem_of_cons in Hlk as [?|?]; done.
Qed.

(** ** Case-insensitive comparison *)

Lemma ascii_lower_inv c : c = ascii_lower c ∨ c = ascii_upper (ascii_lower c).
Proof. destruct c as [[] [] [] [] [] [] [] []]; first [by left | by right]. Qed.

Lemma ascii_lower_lower c : ascii_lower (ascii_lower c) = ascii_lower c.
Proof. by destruct c as [[] [] [] [] [] [] [] []]. Qed.

Lemma ascii_lower_upper c : ascii_lower (ascii_upper c) = ascii_lower c.
Proof. by destruct c as [[] [] [] [] [] [] [] []]. Qed.

Lemma ascii_upper_lower c : ascii_upper (ascii_lower c) = ascii_upper c.
Proof. by destruct c as [[] [] [] [] [] [] [] []]. Qed.

Lemma lower_case_variants v s : lower v = lower s ↔ v ∈ case_variants s.
Proof.
  revert v. induction s as [|c s IH]; intros v; simpl.
  - rewrite list_elem_of_singleton. by destruct v.
  - rewrite list_elem_of_bind. split.
    + destruct v as [|c' v]; simpl; [done|]. intros [= Hc Hv].
      exists v. split; [|by apply IH].
      destruct (ascii_lower_inv c') as [E|E]; rewrite Hc in E; rewrite E at 1.
      * left.
      * rewrite ascii_upper_lower. right. left.
    + intros (tl & Hv & Htl%IH).
      apply elem_of_cons in Hv as [->|Hv]; simpl.
      * by rewrite ascii_lower_lower, Htl.
      * apply list_elem_of_singleton in Hv as ->. simpl.
        by rewrite ascii_lower_upper, Htl.
Qed.

(** ** What is read, that nothing fails, and that nothing is lost *)


(** C1.  Whatever the environment holds, loading the module raises nothing.
    A source whose LOG_GROUP_ARN variable is absent has its step skipped:
    the step returns with the store as it was; with no consulted variable
    set, the configuration is the copy of the default one. *)
Theorem C1_configure_never_raises (env : environ) (σ0 : heap) (h lg t : loc) :
  airflow_shape σ0 h lg t →
  (∃ l σ', module_body env σ0 = Ok l σ')
  ∧ (∀ l σ, env !! "MWAA__LOGGING__AIRFLOW_TASK_LOG_GROUP_ARN" = None →
       _configure_task_logging l env σ = Ok tt σ)
  ∧ (∀ l σ, env !! "MWAA__LOGGING__AIRFLOW_DAGPROCESSOR_LOG_GROUP_ARN" = None →
       _configure_dag_processing_logging l env σ = Ok tt σ)
  ∧ (∀ l σ comp, comp ∈ components →
       env !! ("MWAA__LOGGING__AIRFLOW_" ++ upper comp ++ "_LOG_GROUP_ARN") = None →
       _configure_component l comp env σ = Ok tt σ)
  ∧ (∀ D0, σ0 !! DEFAULT_LOGGING_CONFIG = Some D0 →
       (∀ k, k ∈ mwaa_vars → env !! k = None) →
       module_body env σ0
       = Ok (fresh (dom σ0)) (<[fresh (dom σ0) := D0]> σ0)).
Proof.
  intros Hshape. split; [|split; [|split; [|split]]].
  - destruct (shape_top _ _ _ _ Hshape) as (D0 & HD & _).
    destruct (exec_safe (fresh (dom σ0)) h lg t env (plan env)
                (<[fresh (dom σ0) := D0]> σ0))
      as (σ' & E & _); [by apply wf_of_shape | apply plan_safe |].
    exists (fresh (dom σ0)), σ'.
    by rewrite (module_body_unfold env σ0 D0 HD), E.
  - intros l σ Habsent. rewrite configure_task_logging_plan.
    unfold task_plan, block.
    change (log_group_arn_of "task" env)
      with (env !! "MWAA__LOGGING__AIRFLOW_TASK_LOG_GROUP_ARN").
    by rewrite Habsent.
  - intros l σ Habsent. rewrite configure_dag_processing_logging_plan.
    unfold dag_processing_plan, block.
    change (log_group_arn_of "dagprocessor" env)
      with (env !! "MWAA__LOGGING__AIRFLOW_DAGPROCESSOR_LOG_GROUP_ARN").
    by rewrite Habsent.
  - intros l σ comp Hcomp Habsent. rewrite configure_component_plan by done.
    unfold component_plan, subprocess_plan, block.
    change (log_group_arn_of comp env)
      with (env !! ("MWAA__LOGGING__AIRFLOW_" ++ upper comp ++ "_LOG_GROUP_ARN")).
    by rewrite Habsent.
  - intros D0 HD Habsent. rewrite (module_body_unfold env σ0 D0 HD).
    rewrite plan_skip; [done|].
    intros source Hsource.
    change (log_group_arn_of source env)
      with (env !! ("MWAA__LOGGING__AIRFLOW_" ++ upper source ++ "_LOG_GROUP_ARN")).
    rewrite Habsent; [done|].
    unfold mwaa_vars. right. apply list_elem_of_bind.
    exists source. split; [left | done].
Qed.

(** Two environments that agree on the consulted variables give the same
    plan. *)
Lemma list_bind_ext {A B} (f g : A → list B) (xs : list A) :
  (∀ x, x ∈ xs → f x = g x) → xs ≫= f = xs ≫= g.
Proof.
  induction xs as [|x xs IH]; intros Hfg; [done|].
  simpl. rewrite (Hfg x) by left. f_equal. apply IH.
  intros y Hy. apply Hfg. by right.
Qed.

Lemma logging_env_vars_agree (env1 env2 : environ) source :
  (∀ k, k ∈ source_vars source → env1 !! k = env2 !! k) →
  logging_env_vars source env1 = logging_env_vars source env2.
Proof.
  intros Hagree. unfold logging_env_vars.
  rewrite !Hagree by (unfold source_vars; solve [repeat constructor]). done.
Qed.

Lemma plan_agree (env1 env2 : environ) :
  (∀ k, k ∈ consulted_vars → env1 !! k = env2 !! k) → plan env1 = plan env2.
Proof.
  intros Hagree. rewrite !plan_rows.
  assert (configured env1 = configured env2) as ->
    by (unfold configured; by rewrite (Hagree "HOME") by left).
  apply list_bind_ext. intros [[[src hk] lk] mk] Hrow.
  apply configured_names in Hrow as (Hsrc & _).
  unfold row_plan, block, log_group_arn_of, log_level_of, logging_enabled_of.
  rewrite (logging_env_vars_agree env1 env2 src).
  - rewrite (Hagree "MWAA__CORE__KMS_KEY_ARN") by (right; left). done.
  - intros k Hk. apply Hagree. right. right. apply list_elem_of_bind. eauto.
Qed.

Lemma module_body_agree (env1 env2 : environ) σ0 :
  (∀ k, k ∈ consulted_vars → env1 !! k = env2 !! k) →
  module_body env1 σ0 = module_body env2 σ0.
Proof.
  intros Hagree.
  destruct (σ0 !! DEFAULT_LOGGING_CONFIG) as [D0|] eqn:HD.
  - rewrite !(module_body_unfold _ σ0 D0 HD), (plan_agree env1 env2 Hagree).
    by rewrite (exec_env _ _ env1 env2).
  - unfold module_body, dict_unpack, mbind, M_bind. by rewrite HD.
Qed.

(** C6.  The configuration is a function of the consulted variables: two
    environments that agree on them give, from the same store, the same
    outcome of loading the module. *)
Theorem C6_deterministic (env1 env2 : environ) (σ0 : heap) :
  (∀ k, k ∈ consulted_vars → env1 !! k = env2 !! k) →
  module_body env1 σ0 = module_body env2 σ0.
Proof. apply module_body_agree. Qed.

(** C7.  No key is removed: a top-level key, a handler or a logger that
    the default configuration has is still in [LOGGING_CONFIG] when the
    module is loaded. *)
Theorem C7_no_entry_removed (env : environ) (σ0 : heap) (h lg t : loc) :
  airflow_shape σ0 h lg t →
  ∃ l σ',
    module_body env σ0 = Ok l σ'
    ∧ (∀ k, is_Some (top_of σ0 DEFAULT_LOGGING_CONFIG k) →
            is_Some (top_of σ' l k))
    ∧ (∀ k, is_Some (item_of σ0 DEFAULT_LOGGING_CONFIG "handlers" k) →
            is_Some (item_of σ' l "handlers" k))
    ∧ (∀ k, is_Some (item_of σ0 DEFAULT_LOGGING_CONFIG "loggers" k) →
            is_Some (item_of σ' l "loggers" k)).
Proof.
  intros Hshape.
  destruct (shape_top _ _ _ _ Hshape) as (D0 & HD & Dh & Dlg).
  destruct (shape_handlers _ _ _ _ Hshape) as [H0 HH].
  destruct (shape_loggers _ _ _ _ Hshape) as (G0 & HG & _).
  pose proof (fresh_lookup σ0) as Hl. set (l := fresh (dom σ0)) in *.
  destruct (exec_safe l h lg t env (plan env) (<[l := D0]> σ0))
    as (σ' & E & Hgrows); [by apply wf_of_shape | apply plan_safe |].
  exists l, σ'. split.
  { rewrite (module_body_unfold env σ0 D0 HD). fold l. by rewrite E. }
  destruct (Hgrows l D0) as (L' & HL' & HdomL & HkL);
    [by rewrite lookup_insert_eq|].
  destruct (Hgrows h H0) as (H' & HH' & HdomH & _);
    [by rewrite lookup_insert_ne by congruence|].
  destruct (Hgrows lg G0) as (G' & HG' & HdomG & _);
    [by rewrite lookup_insert_ne by congruence|].
  assert (L' !! "handlers" = Some (VDict h)) as Lh
    by (rewrite HkL, Dh; [done | unfold protected_keys; solve [repeat constructor]]).
  assert (L' !! "loggers" = Some (VDict lg)) as Llg
    by (rewrite HkL, Dlg; [done | unfold protected_keys; solve [repeat constructor]]).
  split; [|split]; intros k.
  - unfold top_of. rewrite HD, HL'. simpl.
    rewrite <- !elem_of_dom. apply HdomL.
  - rewrite (item_of_eq σ0 _ _ _ h D0 H0), (item_of_eq σ' _ _ _ h L' H') by done.
    rewrite <- !elem_of_dom. apply HdomH.
  - rewrite (item_of_eq σ0 _ _ _ lg D0 G0), (item_of_eq σ' _ _ _ lg L' G') by done.
    rewrite <- !elem_of_dom. apply HdomG.
Qed.

(** ** The configuration after the module is loaded *)

Lemma level_update (level : string) (T : dict) :
  dict_of [ ("level", VStr level) ] ∪ T = <["level" := VStr level]> T.
Proof.
  unfold dict_of. cbn [foldl fst snd]. rewrite insert_empty.
  symmetry. apply insert_union_singleton_l.
Qed.

(** Everything the claims below need, in terms of what the configuration
    holds before and after: the top level, the rows of the table, the
    keys outside of it, the "airflow.task" logger, and the objects of the
    default configuration. *)
Lemma module_body_outcome (env : environ) (σ0 : heap) (h lg t : loc) :
  airflow_default σ0 h lg t →
  ∃ l σ',
    module_body env σ0 = Ok l σ'
    ∧ σ' !! l = σ0 !! DEFAULT_LOGGING_CONFIG
    ∧ (∀ o, o ∈ dom σ0 → o ≠ h → o ≠ lg → o ≠ t → σ' !! o = σ0 !! o)
    ∧ (∀ src hk lk mk, (src, hk, lk, mk) ∈ configured env →
         if truthy (log_group_arn_of src env) then
           entry_of σ' l "handlers" hk
           = Some (mk (log_group_arn_of src env)
                      (env !! "MWAA__CORE__KMS_KEY_ARN")
                      (logging_enabled_of src env))
           ∧ (lk ≠ "airflow.task" →
              entry_of σ' l "loggers" lk
              = Some (logger_entry hk (log_level_of src env)))
         else
           item_of σ' l "handlers" hk
           = item_of σ0 DEFAULT_LOGGING_CONFIG "handlers" hk
           ∧ item_of σ' l "loggers" lk
             = item_of σ0 DEFAULT_LOGGING_CONFIG "loggers" lk)
    ∧ (∀ k, k ∉ handler_names →
         item_of σ' l "handlers" k
         = item_of σ0 DEFAULT_LOGGING_CONFIG "handlers" k)
    ∧ (∀ k, k ∉ new_logger_names →
         item_of σ' l "loggers" k
         = item_of σ0 DEFAULT_LOGGING_CONFIG "loggers" k)
    ∧ (∃ T0, entry_of σ0 DEFAULT_LOGGING_CONFIG "loggers" "airflow.task"
             = Some T0
             ∧ entry_of σ' l "loggers" "airflow.task"
               = Some (if truthy (log_group_arn_of "task" env)
                       then <["level" := VStr (log_level_of "task" env)]> T0
                       else T0))
    ∧ (∀ sec k v, sec = "handlers" ∨ sec = "loggers" →
         item_of σ' l sec k = Some v →
         item_of σ0 DEFAULT_LOGGING_CONFIG sec k ≠ Some v →
         ∃ d, last_set sec k (plan env) = Some d ∧ deref σ' v = Some d).
Proof.
  intros Hdef. pose proof Hdef as [[(D0 & HD & Dh & Dlg) [H0 HH]
                                    (G0 & HG & Gt) [T0 HT]] Hnd].
  destruct (module_body_spec env σ0 h lg t D0 H0 G0 T0 Hdef HD HH HG HT)
    as (l & σ' & H' & G' & E & Hl & HL' & HH' & HG' & HT' & F & EH & EG).
  assert (∀ k, item_of σ0 DEFAULT_LOGGING_CONFIG "handlers" k = H0 !! k) as I0h
    by (intros k; by apply (item_of_eq σ0 _ _ _ h D0 H0)).
  assert (∀ k, item_of σ0 DEFAULT_LOGGING_CONFIG "loggers" k = G0 !! k) as I0l
    by (intros k; by apply (item_of_eq σ0 _ _ _ lg D0 G0)).
  assert (∀ k, item_of σ' l "handlers" k = H' !! k) as I1h
    by (intros k; by apply (item_of_eq σ' _ _ _ h D0 H')).
  assert (∀ k, item_of σ' l "loggers" k = G' !! k) as I1l
    by (intros k; by apply (item_of_eq σ' _ _ _ lg D0 G')).
  exists l, σ'. split; [done|]. split; [congruence|]. split; [done|].
  split; [|split; [|split; [|split]]].
  - intros src hk lk mk Hrow.
    specialize (EH hk). specialize (EG lk).
    rewrite (last_set_handler env src hk lk mk Hrow) in EH.
    rewrite (last_set_logger env src hk lk mk Hrow) in EG.
    destruct (truthy (log_group_arn_of src env)); simpl in *.
    + split.
      * destruct EH as (r & _ & Hr & Hd).
        by rewrite (entry_of_eq σ' l "handlers" hk h r D0 H').
      * intros Hlk%String.eqb_neq. rewrite Hlk in EG. simpl in EG.
        destruct EG as (r & _ & Hr & Hd).
        by rewrite (entry_of_eq σ' l "loggers" lk lg r D0 G').
    + by rewrite I0h, I0l, I1h, I1l, EH, EG.
  - intros k Hk. specialize (EH k).
    rewrite (last_set_other_handler env k Hk) in EH. simpl in EH.
    by rewrite I0h, I1h.
  - intros k Hk. specialize (EG k).
    rewrite (last_set_other_logger env k Hk) in EG. simpl in EG.
    by rewrite I0l, I1l.
  - exists T0. split.
    + by rewrite (entry_of_eq σ0 _ "loggers" "airflow.task" lg t D0 G0).
    + specialize (EG "airflow.task").
      rewrite (last_set_other_logger env "airflow.task") in EG.
      2: { unfold new_logger_names. intros Hin.
           repeat (apply elem_of_cons in Hin as [Hin|Hin]; [discriminate|]).
           by apply elem_of_nil in Hin. }
      simpl in EG.
      rewrite (entry_of_eq σ' l "loggers" "airflow.task" lg t D0 G'), HT';
        [|done..|congruence].
      rewrite plan_updates. destruct (truthy _); [|done].
      by rewrite level_update.
  - intros sec k v [-> | ->] Hv Hne.
    + specialize (EH k). rewrite I1h in Hv. rewrite I0h in Hne.
      destruct (last_set "handlers" k (plan env)) as [d|]; simpl in EH.
      * destruct EH as (r & _ & Hr & Hd). exists d. split; [done|].
        rewrite Hr in Hv. by injection Hv as <-.
      * congruence.
    + specialize (EG k). rewrite I1l in Hv. rewrite I0l in Hne.
      destruct (last_set "loggers" k (plan env)) as [d|]; simpl in EG.
      * destruct EG as (r & _ & Hr & Hd). exists d. split; [done|].
        rewrite Hr in Hv. by injection Hv as <-.
      * congruence.
Qed.

Lemma entry_is_item (σ : heap) cfg sec key :
  is_Some (entry_of σ cfg sec key) → is_Some (item_of σ cfg sec key).
Proof.
  unfold entry_of. destruct (item_of σ cfg sec key); [eauto | by intros []].
Qed.

Lemma item_of_alias (σ : heap) cfg1 cfg2 sec key :
  σ !! cfg1 = σ !! cfg2 → item_of σ cfg1 sec key = item_of σ cfg2 sec key.
Proof. intros E. unfold item_of, section_of. by rewrite E. Qed.

(** C3.  With the DAGPROCESSOR log group set to a non-empty value, the
    handlers "processor_manager" and "processor" and the loggers
    "airflow.processor_manager" and "airflow.processor" are in the
    configuration, each logger with the DAGPROCESSOR log level, propagate
    False and its handler as the one element of "handlers"; with the
    variable unset, the four keys hold what they held in the default
    configuration. *)
Theorem C3_dag_processing_entries (env : environ) (σ0 : heap) (h lg t : loc) :
  airflow_default σ0 h lg t →
  ∃ l σ',
    module_body env σ0 = Ok l σ'
    ∧ (∀ a, env !! "MWAA__LOGGING__AIRFLOW_DAGPROCESSOR_LOG_GROUP_ARN" = Some a →
            a ≠ "" →
         entry_of σ' l "handlers" "processor_manager"
         = Some (processor_manager_handler_entry (Some a)
                   (env !! "MWAA__CORE__KMS_KEY_ARN")
                   (logging_enabled_of "dagprocessor" env))
         ∧ entry_of σ' l "handlers" "processor"
           = Some (processor_handler_entry (Some a)
                     (env !! "MWAA__CORE__KMS_KEY_ARN")
                     (logging_enabled_of "dagprocessor" env))
         ∧ entry_of σ' l "loggers" "airflow.processor_manager"
           = Some (dict_of
               [ ("handlers", VList [VStr "processor_manager"]);
                 ("level", VStr (default "INFO"
                    (env !! "MWAA__LOGGING__AIRFLOW_DAGPROCESSOR_LOG_LEVEL")));
                 ("propagate", VBool false) ])
         ∧ entry_of σ' l "loggers" "airflow.processor"
           = Some (dict_of
               [ ("handlers", VList [VStr "processor"]);
                 ("level", VStr (default "INFO"
                    (env !! "MWAA__LOGGING__AIRFLOW_DAGPROCESSOR_LOG_LEVEL")));
                 ("propagate", VBool false) ]))
    ∧ (env !! "MWAA__LOGGING__AIRFLOW_DAGPROCESSOR_LOG_GROUP_ARN" = None →
         item_of σ' l "handlers" "processor_manager"
         = item_of σ0 DEFAULT_LOGGING_CONFIG "handlers" "processor_manager"
         ∧ item_of σ' l "handlers" "processor"
           = item_of σ0 DEFAULT_LOGGING_CONFIG "handlers" "processor"
         ∧ item_of σ' l "loggers" "airflow.processor_manager"
           = item_of σ0 DEFAULT_LOGGING_CONFIG "loggers"
               "airflow.processor_manager"
         ∧ item_of σ' l "loggers" "airflow.processor"
           = item_of σ0 DEFAULT_LOGGING_CONFIG "loggers" "airflow.processor").
Proof.
  intros Hdef.
  destruct (module_body_outcome env σ0 h lg t Hdef)
    as (l & σ' & E & _ & _ & Hrows & _).
  exists l, σ'. split; [done|].
  pose proof (Hrows "dagprocessor" "processor_manager"
                "airflow.processor_manager" processor_manager_handler_entry)
    as R1.
  pose proof (Hrows "dagprocessor" "processor" "airflow.processor"
                processor_handler_entry) as R2.
  change (log_group_arn_of "dagprocessor" env)
    with (env !! "MWAA__LOGGING__AIRFLOW_DAGPROCESSOR_LOG_GROUP_ARN") in R1, R2.
  split.
  - intros a Ha Hne. rewrite Ha in R1, R2. destruct a as [|c a]; [done|].
    simpl in R1, R2.
    destruct R1 as [R1h R1l]; [unfold configured; solve [repeat constructor]|].
    destruct R2 as [R2h R2l]; [unfold configured; solve [repeat constructor]|].
    split; [done|]. split; [done|]. split; [by apply R1l | by apply R2l].
  - intros Ha. rewrite Ha in R1, R2. simpl in R1, R2.
    destruct R1 as [R1h R1l]; [unfold configured; solve [repeat constructor]|].
    destruct R2 as [R2h R2l]; [unfold configured; solve [repeat constructor]|].
    done.
Qed.

(** C4.  With the TASK log group set to a non-empty value, the handler
    "task" is the CloudWatch task handler entry, and the "airflow.task"
    logger is the object it was, with "level" set to the TASK log level and
    every other field as before. *)
Theorem C4_task_entries (env : environ) (σ0 : heap) (h lg t : loc) :
  airflow_default σ0 h lg t →
  ∃ l σ',
    module_body env σ0 = Ok l σ'
    ∧ (∀ a, env !! "MWAA__LOGGING__AIRFLOW_TASK_LOG_GROUP_ARN" = Some a →
            a ≠ "" →
         entry_of σ' l "handlers" "task"
         = Some (dict_of
             [ ("class", VStr (qualified_name TaskLogHandler));
               ("formatter", VStr "airflow");
               ("filters", VList [VStr "mask_secrets"]);
               ("base_log_folder",
                 VStr (expanduser (env !! "HOME") BASE_LOG_FOLDER));
               ("log_group_arn", VStr a);
               ("kms_key_arn", of_optional (env !! "MWAA__CORE__KMS_KEY_ARN"));
               ("enabled", VBool (String.eqb
                  (lower (default "false"
                     (env !! "MWAA__LOGGING__AIRFLOW_TASK_LOGS_ENABLED")))
                  "true")) ])
         ∧ item_of σ' l "loggers" "airflow.task"
           = item_of σ0 DEFAULT_LOGGING_CONFIG "loggers" "airflow.task"
         ∧ ∃ T0,
             entry_of σ0 DEFAULT_LOGGING_CONFIG "loggers" "airflow.task"
             = Some T0
             ∧ entry_of σ' l "loggers" "airflow.task"
               = Some (<["level" := VStr (default "INFO"
                          (env !! "MWAA__LOGGING__AIRFLOW_TASK_LOG_LEVEL"))]> T0)).
Proof.
  intros Hdef.
  destruct (module_body_outcome env σ0 h lg t Hdef)
    as (l & σ' & E & _ & _ & Hrows & _ & Hothers & (T0 & HT0 & HT') & _).
  exists l, σ'. split; [done|].
  intros a Ha Hne.
  pose proof (Hrows "task" "task" "airflow.task"
                (task_handler_entry (expanduser (env !! "HOME") BASE_LOG_FOLDER)))
    as R.
  change (log_group_arn_of "task" env)
    with (env !! "MWAA__LOGGING__AIRFLOW_TASK_LOG_GROUP_ARN") in R, HT'.
  rewrite Ha in R, HT'. destruct a as [|c a]; [done|]. simpl in R, HT'.
  destruct R as [Rh _]; [unfold configured; solve [repeat constructor]|].
  split; [exact Rh|]. split.
  - apply Hothers. unfold new_logger_names. intros Hin.
    repeat (apply elem_of_cons in Hin as [Hin|Hin]; [discriminate|]).
    by apply elem_of_nil in Hin.
  - by exists T0.
Qed.

(** C5.  The module touches the named handlers and loggers and nothing
    else: every top-level key holds what the default configuration holds
    (the "handlers" and "loggers" dicts are the default configuration's own
    objects), every other handler and logger key holds what it held, and no
    object of the default configuration other than the "handlers" dict, the
    "loggers" dict and the "airflow.task" logger is changed. *)
Theorem C5_frame (env : environ) (σ0 : heap) (h lg t : loc) :
  airflow_default σ0 h lg t →
  ∃ l σ',
    module_body env σ0 = Ok l σ'
    ∧ (∀ k, top_of σ' l k = top_of σ0 DEFAULT_LOGGING_CONFIG k)
    ∧ (∀ k, k ∉ handler_names →
         item_of σ' l "handlers" k
         = item_of σ0 DEFAULT_LOGGING_CONFIG "handlers" k)
    ∧ (∀ k, k ∉ logger_names →
         item_of σ' l "loggers" k
         = item_of σ0 DEFAULT_LOGGING_CONFIG "loggers" k)
    ∧ (∀ o, o ∈ dom σ0 → o ≠ h → o ≠ lg → o ≠ t → σ' !! o = σ0 !! o)
    ∧ (∀ k, top_of σ' l k = top_of σ' DEFAULT_LOGGING_CONFIG k)
    ∧ (∀ sec k, item_of σ' l sec k = item_of σ' DEFAULT_LOGGING_CONFIG sec k).
Proof.
  intros Hdef.
  destruct (module_body_outcome env σ0 h lg t Hdef)
    as (l & σ' & E & Htop & F & _ & Hh & Hl & _).
  assert (σ' !! DEFAULT_LOGGING_CONFIG = σ0 !! DEFAULT_LOGGING_CONFIG) as Hd.
  { destruct Hdef as [[(D0 & HD & _) _ _ _] Hnd].
    apply NoDup_cons in Hnd as [Hnot _].
    rewrite !not_elem_of_cons in Hnot. destruct Hnot as (? & ? & ? & _).
    apply F; [by apply elem_of_dom_2 in HD | done..]. }
  exists l, σ'. split; [done|].
  split; [intros k; unfold top_of; by rewrite Htop|].
  split; [done|]. split.
  { intros k Hk. apply Hl. intros Hin. apply Hk. by right. }
  split; [done|]. split.
  - intros k. unfold top_of. by rewrite Htop, Hd.
  - intros sec k. apply item_of_alias. by rewrite Htop, Hd.
Qed.

Lemma configured_entry_fields env src hk lk mk a k e :
  (src, hk, lk, mk) ∈ configured env →
  mk a k e !! "enabled" = Some (VBool e)
  ∧ mk a k e !! "log_group_arn" = Some (of_optional a).
Proof. intros Hrow. in_configured Hrow; split; reflexivity. Qed.

Lemma enabled_false (env : environ) src :
  (∀ v, env !! ("MWAA__LOGGING__AIRFLOW_" ++ upper src ++ "_LOGS_ENABLED")
        = Some v → v ∉ case_variants "true") →
  logging_enabled_of src env = false.
Proof.
  intros Hv. unfold logging_enabled_of, logging_env_vars. simpl.
  apply String.eqb_neq. destruct (env !! _) as [v|]; simpl; [|done].
  change "true" with (lower "true"). rewrite lower_case_variants. by apply Hv.
Qed.

(** C8.  For every log source, the log group alone decides whether its
    handler and logger are configured.  With the log group set to a
    non-empty value and LOGS_ENABLED absent or not a spelling of "true", the
    handler is there with "enabled" False, and the logger is there; with the
    log group unset or empty, the handler and the logger keys hold what they
    held, whatever LOGS_ENABLED is. *)
Theorem C8_gated_by_log_group (env : environ) (σ0 : heap) (h lg t : loc) :
  airflow_default σ0 h lg t →
  ∃ l σ',
    module_body env σ0 = Ok l σ'
    ∧ ∀ src hk lk mk, (src, hk, lk, mk) ∈ configured env →
        let arn := env !! ("MWAA__LOGGING__AIRFLOW_" ++ upper src ++ "_LOG_GROUP_ARN") in
        let enabled := env !! ("MWAA__LOGGING__AIRFLOW_" ++ upper src ++ "_LOGS_ENABLED") in
        (∀ a, arn = Some a → a ≠ "" →
           (∀ v, enabled = Some v → v ∉ case_variants "true") →
           (∃ d, entry_of σ' l "handlers" hk = Some d
                 ∧ d !! "enabled" = Some (VBool false)
                 ∧ d !! "log_group_arn" = Some (VStr a))
           ∧ is_Some (entry_of σ' l "loggers" lk))
        ∧ (arn = None ∨ arn = Some "" →
           item_of σ' l "handlers" hk
           = item_of σ0 DEFAULT_LOGGING_CONFIG "handlers" hk
           ∧ item_of σ' l "loggers" lk
             = item_of σ0 DEFAULT_LOGGING_CONFIG "loggers" lk
           ∧ (lk = "airflow.task" →
              entry_of σ' l "loggers" lk
              = entry_of σ0 DEFAULT_LOGGING_CONFIG "loggers" lk)).
Proof.
  intros Hdef.
  destruct (module_body_outcome env σ0 h lg t Hdef)
    as (l & σ' & E & _ & _ & Hrows & _ & _ & (T0 & HT0 & HT') & _).
  exists l, σ'. split; [done|].
  intros src hk lk mk Hrow arn enabled.
  pose proof (Hrows src hk lk mk Hrow) as R.
  change (log_group_arn_of src env) with arn in R.
  split.
  - intros a Ha Hne Hoff.
    assert (truthy arn = true) as Ht by (apply truthy_nonempty; eauto).
    rewrite Ht in R. destruct R as [Rh Rl].
    rewrite (enabled_false env src Hoff) in Rh. split.
    + eexists. split; [exact Rh|].
      destruct (configured_entry_fields env src hk lk mk arn
                  (env !! "MWAA__CORE__KMS_KEY_ARN") false Hrow) as [-> ->].
      by rewrite Ha.
    + destruct (decide (lk = "airflow.task")) as [->|Hlk].
      * rewrite HT'. eauto.
      * rewrite Rl by done. eauto.
  - intros Ht%truthy_false. rewrite Ht in R. destruct R as [Rh Rl].
    split; [done|]. split; [done|]. intros ->.
    assert (src = "task") as -> by (in_configured Hrow; done).
    change (log_group_arn_of "task" env) with arn in HT'.
    by rewrite HT', Ht, HT0.
Qed.

Lemma requirements_var_not_consulted comp suffix k :
  comp ∈ components → k ∈ consulted_vars →
  "MWAA__LOGGING__AIRFLOW_" ++ upper comp ++ "_REQUIREMENTS" ++ suffix ≠ k.
Proof.
  unfold components, consulted_vars, mwaa_vars, log_sources, components. simpl.
  intros Hcomp Hk.
  repeat (apply elem_of_cons in Hcomp as [->|Hcomp]);
    try (by apply elem_of_nil in Hcomp);
    repeat (apply elem_of_cons in Hk as [->|Hk]);
    try (by apply elem_of_nil in Hk); simpl; discriminate.
Qed.

(** C9.  For each of Worker, Scheduler, WebServer and Triggerer, the
    handler and the logger of the component and those of its
    "_requirements" variant are configured together, from the one triple
    read for the component; a variable named after the "_REQUIREMENTS"
    variant changes nothing. *)
Theorem C9_requirements_share_settings
    (env : environ) (σ0 : heap) (h lg t : loc) :
  airflow_default σ0 h lg t →
  ∃ l σ',
    module_body env σ0 = Ok l σ'
    ∧ ∀ comp, comp ∈ components →
        let arn := env !! ("MWAA__LOGGING__AIRFLOW_" ++ upper comp ++ "_LOG_GROUP_ARN") in
        let level := default "INFO"
          (env !! ("MWAA__LOGGING__AIRFLOW_" ++ upper comp ++ "_LOG_LEVEL")) in
        let enabled := String.eqb
          (lower (default "false"
             (env !! ("MWAA__LOGGING__AIRFLOW_" ++ upper comp ++ "_LOGS_ENABLED"))))
          "true" in
        let kms := env !! "MWAA__CORE__KMS_KEY_ARN" in
        (truthy arn = true →
           entry_of σ' l "handlers" ("mwaa_" ++ lower comp)
           = Some (subprocess_handler_entry comp arn kms enabled)
           ∧ entry_of σ' l "handlers" ("mwaa_" ++ lower comp ++ "_requirements")
             = Some (subprocess_handler_entry (comp ++ "_requirements")
                       arn kms enabled)
           ∧ entry_of σ' l "loggers" ("mwaa." ++ lower comp)
             = Some (logger_entry ("mwaa_" ++ lower comp) level)
           ∧ entry_of σ' l "loggers" ("mwaa." ++ lower comp ++ "_requirements")
             = Some (logger_entry ("mwaa_" ++ lower comp ++ "_requirements")
                       level))
        ∧ (truthy arn = false →
           ∀ name, name ∈ [lower comp; lower comp ++ "_requirements"] →
             item_of σ' l "handlers" ("mwaa_" ++ name)
             = item_of σ0 DEFAULT_LOGGING_CONFIG "handlers" ("mwaa_" ++ name)
             ∧ item_of σ' l "loggers" ("mwaa." ++ name)
               = item_of σ0 DEFAULT_LOGGING_CONFIG "loggers" ("mwaa." ++ name))
        ∧ (∀ suffix v,
             module_body
               (<["MWAA__LOGGING__AIRFLOW_" ++ upper comp ++ "_REQUIREMENTS"
                  ++ suffix := v]> env) σ0
             = module_body env σ0).
Proof.
  intros Hdef.
  destruct (module_body_outcome env σ0 h lg t Hdef)
    as (l & σ' & E & _ & _ & Hrows & _).
  exists l, σ'. split; [done|].
  intros comp Hcomp arn level enabled kms.
  assert ((comp, "mwaa_" ++ lower comp, "mwaa." ++ lower comp,
           subprocess_handler_entry comp) ∈ configured env
          ∧ (comp, "mwaa_" ++ lower comp ++ "_requirements",
             "mwaa." ++ lower comp ++ "_requirements",
             subprocess_handler_entry (comp ++ "_requirements")) ∈ configured env
          ∧ "mwaa." ++ lower comp ≠ "airflow.task"
          ∧ "mwaa." ++ lower comp ++ "_requirements" ≠ "airflow.task")
    as (Hrow1 & Hrow2 & Hne1 & Hne2).
  { unfold components in Hcomp.
    repeat (apply elem_of_cons in Hcomp as [->|Hcomp]);
      try (by apply elem_of_nil in Hcomp);
      (split; [unfold configured; solve [repeat constructor]|];
       split; [unfold configured; solve [repeat constructor]|];
       split; discriminate). }
  pose proof (Hrows _ _ _ _ Hrow1) as R1.
  pose proof (Hrows _ _ _ _ Hrow2) as R2.
  change (log_group_arn_of comp env) with arn in R1, R2.
  split; [|split].
  - intros Ht. rewrite Ht in R1, R2.
    destruct R1 as [R1h R1l], R2 as [R2h R2l].
    split; [exact R1h|]. split; [exact R2h|].
    split; [by apply R1l | by apply R2l].
  - intros Ht name Hname. rewrite Ht in R1, R2.
    apply elem_of_cons in Hname as [->|Hname];
      [|apply list_elem_of_singleton in Hname as ->]; done.
  - intros suffix v. apply module_body_agree. intros k Hk.
    apply lookup_insert_ne. by apply requirements_var_not_consulted.
Qed.

(** C10.  Every logger entry the module adds (the "airflow.task" logger is
    updated, not added) is a dict with "propagate" False and a "handlers"
    list of exactly one name, and that name is a key of the handlers of
    the configuration. *)
Theorem C10_added_loggers (env : environ) (σ0 : heap) (h lg t : loc) :
  airflow_default σ0 h lg t →
  ∃ l σ',
    module_body env σ0 = Ok l σ'
    ∧ ∀ k v,
        item_of σ' l "loggers" k = Some v →
        item_of σ0 DEFAULT_LOGGING_CONFIG "loggers" k ≠ Some v →
        ∃ handler_name level,
          deref σ' v
          = Some (dict_of [ ("handlers", VList [VStr handler_name]);
                            ("level", VStr level);
                            ("propagate", VBool false) ])
          ∧ is_Some (item_of σ' l "handlers" handler_name).
Proof.
  intros Hdef.
  destruct (module_body_outcome env σ0 h lg t Hdef)
    as (l & σ' & E & _ & _ & Hrows & _ & _ & _ & Hchanged).
  exists l, σ'. split; [done|].
  intros k v Hv Hne.
  destruct (Hchanged "loggers" k v) as (d & Hset & Hd); [by right | done..|].
  apply last_set_elem, plan_set_inv in Hset
    as (src & hk & lk & mk & Hrow & Ht & [(? & _)|(_ & -> & _ & ->)]);
    [done|].
  exists hk, (log_level_of src env). split; [exact Hd|].
  pose proof (Hrows src hk lk mk Hrow) as R. rewrite Ht in R.
  destruct R as [Rh _]. apply entry_is_item. rewrite Rh. eauto.
Qed.

(** * More of the module's behaviour *)

(** ** Names *)

Lemma table_get_unknown table k env σ :
  k ∉ table.*1 → table_get table k env σ = Raise (KeyError k).
Proof.
  induction table as [|[k' v] table IH]; simpl; [done|].
  rewrite not_elem_of_cons. intros [Hne Hk].
  apply String.eqb_neq in Hne. rewrite Hne. by apply IH.
Qed.

Lemma table_lookup_known table k :
  k ∈ table.*1 → is_Some (table_lookup table k).
Proof.
  induction table as [|[k' v] table IH]; simpl; [by rewrite elem_of_nil|].
  destruct (String.eqb k k') eqn:E; [eauto|].
  apply String.eqb_neq in E. rewrite elem_of_cons. intros [?|?]; [done|auto].
Qed.

(** X5.  [_configure_subprocesses_logging] looks its logger up before it
    looks at the log group: an ASCII name that is not a key of
    [MWAA_LOGGERS] once lower-cased raises [KeyError] with the lower-cased
    name, whatever the other arguments are; a name that is one, with no log
    group, returns without touching the store. *)
Theorem X5_unknown_subprocess (LOGGING_CONFIG : loc) (name : string)
    (log_group_arn : option string) (log_level : string) (enabled : bool)
    (env : environ) (σ : heap) :
  isascii name = true →
  (lower name ∉ MWAA_LOGGERS.*1 →
     _configure_subprocesses_logging LOGGING_CONFIG name log_group_arn
       log_level enabled env σ
     = Raise (KeyError (lower name)))
  ∧ (lower name ∈ MWAA_LOGGERS.*1 → truthy log_group_arn = false →
     _configure_subprocesses_logging LOGGING_CONFIG name log_group_arn
       log_level enabled env σ
     = Ok tt σ).
Proof.
  intros _. unfold _configure_subprocesses_logging. split.
  - intros Hk. unfold mbind, M_bind. by rewrite table_get_unknown.
  - intros [v Hv]%table_lookup_known Hoff.
    erewrite bind_ok by (apply table_get_lookup, Hv). by rewrite Hoff.
Qed.

(** X11.  The table [MWAA_LOGGERS]: every key is lower-case, so that the
    lower-cased name can hit it, its logger is "mwaa." followed by the key
    and the handler name made of it is "mwaa_" followed by the key; two
    keys never share a handler name. *)
Theorem X11_logger_table :
  (∀ k v, (k, v) ∈ MWAA_LOGGERS →
     lower k = k ∧ v = "mwaa." ++ k ∧ replace "." "_" v = "mwaa_" ++ k)
  ∧ (∀ k1 v1 k2 v2, (k1, v1) ∈ MWAA_LOGGERS → (k2, v2) ∈ MWAA_LOGGERS →
       replace "." "_" v1 = replace "." "_" v2 → k1 = k2)
  ∧ NoDup MWAA_LOGGERS.*1.
Proof.
  assert (∀ k v, (k, v) ∈ MWAA_LOGGERS →
            lower k = k ∧ v = "mwaa." ++ k ∧ replace "." "_" v = "mwaa_" ++ k)
    as Hnames.
  { intros k v Hin. unfold MWAA_LOGGERS in Hin.
    repeat (apply elem_of_cons in Hin as [Hin|Hin];
            [injection Hin as -> ->; by repeat split|]).
    by apply elem_of_nil in Hin. }
  split; [exact Hnames|]. split.
  - intros k1 v1 k2 v2 (_ & _ & H1)%Hnames (_ & _ & H2)%Hnames E.
    rewrite H1, H2 in E. by injection E.
  - simpl.
    repeat (apply NoDup_cons_2;
            [intros Hin;
             repeat (apply elem_of_cons in Hin as [Hin|Hin]; [discriminate|]);
             by apply elem_of_nil in Hin|]).
    apply NoDup_nil_2.
Qed.

(** ** Source names are read in upper case *)

Lemma ascii_upper_inv c : c = ascii_upper c ∨ c = ascii_lower (ascii_upper c).
Proof. destruct c as [[] [] [] [] [] [] [] []]; first [by left | by right]. Qed.

Lemma ascii_upper_upper c : ascii_upper (ascii_upper c) = ascii_upper c.
Proof. by destruct c as [[] [] [] [] [] [] [] []]. Qed.

Lemma upper_case_variants v s : upper v = upper s ↔ v ∈ case_variants s.
Proof.
  revert v. induction s as [|c s IH]; intros v; simpl.
  - rewrite list_elem_of_singleton. by destruct v.
  - rewrite list_elem_of_bind. split.
    + destruct v as [|c' v]; simpl; [done|]. intros [= Hc Hv].
      exists v. split; [|by apply IH].
      destruct (ascii_upper_inv c') as [E|E]; rewrite Hc in E; rewrite E at 1.
      * right. left.
      * rewrite ascii_lower_upper. left.
    + intros (tl & Hv & Htl%IH).
      apply elem_of_cons in Hv as [->|Hv]; simpl.
      * by rewrite ascii_upper_lower, Htl.
      * apply list_elem_of_singleton in Hv as ->. simpl.
        by rewrite ascii_upper_upper, Htl.
Qed.

Lemma append_nil_l (t : string) : "" ++ t = t.
Proof. reflexivity. Qed.

Lemma append_cons_l c (a t : string) : String c a ++ t = String c (a ++ t).
Proof. reflexivity. Qed.

Lemma length_append_ge (y t : string) :
  (String.length t ≤ String.length (y ++ t))%nat.
Proof.
  induction y; [exact (le_n _)|]. rewrite append_cons_l. simpl. lia.
Qed.

Lemma append_inv_tail (a b t : string) : a ++ t = b ++ t → a = b.
Proof.
  revert b. induction a as [|c a IH]; intros [|c' b];
    rewrite ?append_nil_l, ?append_cons_l.
  - done.
  - intros E%(f_equal String.length). simpl in E.
    pose proof (length_append_ge b t). lia.
  - intros E%(f_equal String.length). simpl in E.
    pose proof (length_append_ge a t). lia.
  - intros [= -> E]. f_equal. by apply IH.
Qed.

(** X10.  A source is named in any case: two ASCII names read the same
    variables exactly when they are spellings of one another, and then
    [_get_mwaa_logging_env_vars] gives the same for both. *)
Theorem X10_source_case (s1 s2 : string) :
  isascii s1 = true → isascii s2 = true →
  (∀ suffix,
     "MWAA__LOGGING__AIRFLOW_" ++ upper s1 ++ suffix
     = "MWAA__LOGGING__AIRFLOW_" ++ upper s2 ++ suffix
     ↔ s2 ∈ case_variants s1)
  ∧ (s2 ∈ case_variants s1 →
     ∀ env σ, _get_mwaa_logging_env_vars s2 env σ
              = _get_mwaa_logging_env_vars s1 env σ).
Proof.
  intros _ _. split.
  - intros suffix. rewrite <- upper_case_variants. split.
    + rewrite !append_cons_l, !append_nil_l. intros [= E].
      symmetry. by apply append_inv_tail in E.
    + by intros ->.
  - intros E%upper_case_variants env σ.
    rewrite !get_mwaa_logging_env_vars_eq. unfold logging_env_vars.
    by rewrite E.
Qed.

(** ** Nothing is looked up before a log group is set *)

(** X1.  With every log group absent or empty, loading the module does not
    look into the default configuration at all: whatever it holds, and
    whatever the other variables are, the result is its copy. *)
Theorem X1_nothing_configured (env : environ) (σ0 : heap) (D0 : dict) :
  σ0 !! DEFAULT_LOGGING_CONFIG = Some D0 →
  (∀ source, source ∈ log_sources →
     env !! ("MWAA__LOGGING__AIRFLOW_" ++ upper source ++ "_LOG_GROUP_ARN") = None
     ∨ env !! ("MWAA__LOGGING__AIRFLOW_" ++ upper source ++ "_LOG_GROUP_ARN")
       = Some "") →
  module_body env σ0 = Ok (fresh (dom σ0)) (<[fresh (dom σ0) := D0]> σ0).
Proof.
  intros HD Hoff. rewrite (module_body_unfold env σ0 D0 HD).
  rewrite plan_skip; [done|].
  intros source Hsource. apply truthy_false. by apply Hoff.
Qed.

(** ** A default configuration that is not as Airflow's *)

Lemma log_source_row env src :
  src ∈ log_sources → ∃ hk lk mk, (src, hk, lk, mk) ∈ configured env.
Proof.
  unfold log_sources, components. intros Hsrc.
  repeat (apply elem_of_cons in Hsrc as [->|Hsrc]);
    try (by apply elem_of_nil in Hsrc);
    eexists _, _, _; unfold configured; solve [repeat constructor].
Qed.

(** The first two statements of a plan that is not empty: an assignment to
    a handler, then an assignment to a logger or the update of one. *)
Lemma rows_first env rows :
  (∃ src hk lk mk, (src, hk, lk, mk) ∈ rows
                   ∧ truthy (log_group_arn_of src env) = true) →
  ∃ hk d lk d2 ws,
    (rows ≫= row_plan env = SetEntry "handlers" hk d
                             :: SetEntry "loggers" lk d2 :: ws)
    ∨ (rows ≫= row_plan env = SetEntry "handlers" hk d
                               :: UpdateEntry "loggers" lk d2 :: ws).
Proof.
  induction rows as [|[[[src hk] lk] mk] rows IH];
    intros (src' & hk' & lk' & mk' & Hin & Ht); [by apply elem_of_nil in Hin|].
  assert (((src, hk, lk, mk) :: rows) ≫= row_plan env
          = (block src env
               [ SetEntry "handlers" hk
                   (mk (log_group_arn_of src env)
                      (env !! "MWAA__CORE__KMS_KEY_ARN")
                      (logging_enabled_of src env));
                 if String.eqb lk "airflow.task" then
                   UpdateEntry "loggers" lk
                     (dict_of [ ("level", VStr (log_level_of src env)) ])
                 else
                   SetEntry "loggers" lk
                     (logger_entry hk (log_level_of src env)) ]
             ++ (rows ≫= row_plan env))%list) as -> by reflexivity.
  unfold block. destruct (truthy (log_group_arn_of src env)) eqn:Hsrc.
  - destruct (String.eqb lk "airflow.task");
      eexists _, _, _, _, _; [right | left]; reflexivity.
  - apply IH. apply elem_of_cons in Hin as [Hin|Hin]; [|by eauto 10].
    injection Hin as -> -> -> ->. congruence.
Qed.

Lemma plan_first env :
  (∃ src, src ∈ log_sources ∧ truthy (log_group_arn_of src env) = true) →
  ∃ hk d lk d2 ws,
    plan env = SetEntry "handlers" hk d :: SetEntry "loggers" lk d2 :: ws
    ∨ plan env = SetEntry "handlers" hk d :: UpdateEntry "loggers" lk d2 :: ws.
Proof.
  intros (src & Hsrc & Ht). rewrite plan_rows. apply rows_first.
  destruct (log_source_row env src Hsrc) as (hk & lk & mk & Hrow). eauto 10.
Qed.

Lemma exec_cons l s ws env σ :
  exec l (s :: ws) env σ
  = match exec_stmt l s env σ with
    | Ok _ σ1 => exec l ws env σ1
    | Raise e => Raise e
    end.
Proof. reflexivity. Qed.

(** An assignment to a handler or logger when the section is missing or is
    not a dict. *)
Lemma exec_set_error l sec key d env σ (L : dict) e :
  σ !! l = Some L → section_error sec (L !! sec) = Some e →
  exec_stmt l (SetEntry sec key d) env σ = Raise e.
Proof.
  intros HL He. pose proof (fresh_lookup σ) as Hr.
  unfold exec_stmt, new_dict, subscript, store_subscript, mbind, M_bind.
  rewrite lookup_insert_ne, HL by congruence.
  destruct (L !! sec) as [[]|]; simpl in He; by simplify_eq.
Qed.

(** An assignment to a handler when "handlers" is a dict. *)
Lemma exec_set_handler l h key d env σ (L H : dict) :
  σ !! l = Some L → L !! "handlers" = Some (VDict h) → σ !! h = Some H →
  exec_stmt l (SetEntry "handlers" key d) env σ
  = Ok tt (<[h := <[key := VDict (fresh (dom σ))]> H]> (<[fresh (dom σ) := d]> σ)).
Proof.
  intros HL Hh HH. pose proof (fresh_lookup σ) as Hr.
  unfold exec_stmt, new_dict, subscript, store_subscript, mbind, M_bind.
  rewrite lookup_insert_ne, HL, Hh by congruence.
  by rewrite lookup_insert_ne, HH by congruence.
Qed.

(** X2.  If the default configuration has no "handlers", or has one that
    is not a dict, loading the module with some log group set raises:
    [KeyError] with "handlers" in the first case, [TypeError] in the
    second. *)
Theorem X2_handlers_missing (env : environ) (σ0 : heap) (D0 : dict) (e : exn) :
  σ0 !! DEFAULT_LOGGING_CONFIG = Some D0 →
  section_error "handlers" (D0 !! "handlers") = Some e →
  (∃ source a, source ∈ log_sources
     ∧ env !! ("MWAA__LOGGING__AIRFLOW_" ++ upper source ++ "_LOG_GROUP_ARN")
       = Some a
     ∧ a ≠ "") →
  module_body env σ0 = Raise e.
Proof.
  intros HD He (src & a & Hsrc & Ha & Hne).
  rewrite (module_body_unfold env σ0 D0 HD).
  destruct (plan_first env) as (hk & d & lk & d2 & ws & [-> | ->]).
  { exists src. split; [done|]. apply truthy_nonempty. eauto. }
  all: rewrite exec_cons,
         (exec_set_error _ "handlers" hk d env _ D0 e); try done;
       by rewrite lookup_insert_eq.
Qed.

(** X3.  If the default configuration has a "handlers" dict but no
    "loggers", or one that is not a dict, loading the module with some log
    group set raises [KeyError] with "loggers", or [TypeError]. *)
Theorem X3_loggers_missing (env : environ) (σ0 : heap) (D0 H0 : dict)
    (h : loc) (e : exn) :
  σ0 !! DEFAULT_LOGGING_CONFIG = Some D0 →
  D0 !! "handlers" = Some (VDict h) → σ0 !! h = Some H0 →
  section_error "loggers" (D0 !! "loggers") = Some e →
  (∃ source a, source ∈ log_sources
     ∧ env !! ("MWAA__LOGGING__AIRFLOW_" ++ upper source ++ "_LOG_GROUP_ARN")
       = Some a
     ∧ a ≠ "") →
  module_body env σ0 = Raise e.
Proof.
  intros HD Dh HH He (src & a & Hsrc & Ha & Hne).
  rewrite (module_body_unfold env σ0 D0 HD).
  pose proof (fresh_lookup σ0) as Hl. set (l := fresh (dom σ0)) in *.
  assert (l ≠ h) as Hlh by congruence.
  pose proof (fresh_lookup (<[l := D0]> σ0)) as Hr.
  set (r := fresh (dom (<[l := D0]> σ0))) in *.
  assert (r ≠ l) as Hrl by (intros E; rewrite E, lookup_insert_eq in Hr; done).
  assert (r ≠ h) as Hrh
    by (intros E; rewrite E, lookup_insert_ne in Hr by done; congruence).
  destruct (plan_first env) as (hk & d & lk & d2 & ws & [-> | ->]).
  { exists src. split; [done|]. apply truthy_nonempty. eauto. }
  all: rewrite exec_cons,
         (exec_set_handler l h hk d env _ D0 H0);
       [ | by rewrite lookup_insert_eq | done
         | by rewrite lookup_insert_ne by done ];
       fold r; rewrite exec_cons.
  - rewrite (exec_set_error l "loggers" lk d2 env _ D0 e); [done| |done].
    by rewrite !lookup_insert_ne, lookup_insert_eq by done.
  - unfold exec_stmt, subscript, dict_update, mbind, M_bind.
    rewrite !lookup_insert_ne, lookup_insert_eq by done.
    destruct (D0 !! "loggers") as [[]|]; simpl in He; by simplify_eq.
Qed.

(** X4.  If the default configuration has its "handlers" and "loggers"
    dicts but no "airflow.task" logger, or one that is not a dict, loading
    the module with the TASK log group set raises [KeyError] with
    "airflow.task", or [AttributeError]. *)
Theorem X4_task_logger_missing (env : environ) (σ0 : heap) (D0 H0 G0 : dict)
    (h lg : loc) (a : string) (e : exn) :
  σ0 !! DEFAULT_LOGGING_CONFIG = Some D0 →
  D0 !! "handlers" = Some (VDict h) → σ0 !! h = Some H0 →
  D0 !! "loggers" = Some (VDict lg) → σ0 !! lg = Some G0 →
  task_logger_error (G0 !! "airflow.task") = Some e →
  env !! "MWAA__LOGGING__AIRFLOW_TASK_LOG_GROUP_ARN" = Some a → a ≠ "" →
  module_body env σ0 = Raise e.
Proof.
  intros HD Dh HH Dlg HG He Ha Hne.
  rewrite (module_body_unfold env σ0 D0 HD).
  pose proof (fresh_lookup σ0) as Hl. set (l := fresh (dom σ0)) in *.
  assert (l ≠ h) as Hlh by congruence.
  assert (l ≠ lg) as Hllg by congruence.
  pose proof (fresh_lookup (<[l := D0]> σ0)) as Hr.
  set (r := fresh (dom (<[l := D0]> σ0))) in *.
  assert (r ≠ l) as Hrl by (intros E; rewrite E, lookup_insert_eq in Hr; done).
  assert (r ≠ h) as Hrh
    by (intros E; rewrite E, lookup_insert_ne in Hr by done; congruence).
  assert (r ≠ lg) as Hrlg
    by (intros E; rewrite E, lookup_insert_ne in Hr by done; congruence).
  assert (truthy (log_group_arn_of "task" env) = true) as Ht.
  { apply truthy_nonempty. exists a. by split. }
  rewrite plan_unfold. unfold task_plan, block. rewrite Ht.
  cbn [app]. rewrite exec_cons.
  rewrite (exec_set_handler l h "task" _ env _ D0 H0);
    [ | by rewrite lookup_insert_eq | done
      | by rewrite lookup_insert_ne by done ].
  fold r. rewrite exec_cons.
  unfold exec_stmt, subscript, dict_update, mbind, M_bind.
  rewrite !lookup_insert_ne, lookup_insert_eq, Dlg by done.
  destruct (decide (lg = h)) as [->|Hlgh].
  - rewrite lookup_insert_eq. assert (H0 = G0) as -> by congruence.
    rewrite lookup_insert_ne by done.
    destruct (G0 !! "airflow.task") as [[]|]; simpl in He; by simplify_eq.
  - rewrite !lookup_insert_ne, HG by done.
    destruct (G0 !! "airflow.task") as [[]|]; simpl in He; by simplify_eq.
Qed.

(** ** What the handlers have in common, and what each source decides *)

Lemma module_body_loc env σ0 l σ' :
  module_body env σ0 = Ok l σ' → l = fresh (dom σ0) ∧ l ∉ dom σ0.
Proof.
  unfold module_body, dict_unpack, mbind, M_bind, mret, M_ret.
  destruct (σ0 !! DEFAULT_LOGGING_CONFIG); [|done].
  destruct (_configure _ env _); [|done].
  intros [= <- _]. split; [done | apply is_fresh].
Qed.

Lemma configured_common_fields env src hk lk mk a k e :
  (src, hk, lk, mk) ∈ configured env →
  mk a k e !! "formatter" = Some (VStr "airflow")
  ∧ mk a k e !! "kms_key_arn" = Some (of_optional k)
  ∧ ∃ c, mk a k e !! "class" = Some (VStr (qualified_name c)).
Proof.
  intros Hrow. in_configured Hrow;
    (split; [reflexivity|]; split; [reflexivity|]; eexists; reflexivity).
Qed.

(** X9.  Every handler the module writes is one of the four CloudWatch
    handler classes, uses the "airflow" formatter, and carries the one key
    of MWAA__CORE__KMS_KEY_ARN ([None] when it is absent): there is no key
    per source. *)
Theorem X9_handlers_share_key (env : environ) (σ0 : heap) (h lg t : loc) :
  airflow_default σ0 h lg t →
  ∃ l σ',
    module_body env σ0 = Ok l σ'
    ∧ ∀ src hk lk mk a, (src, hk, lk, mk) ∈ configured env →
        env !! ("MWAA__LOGGING__AIRFLOW_" ++ upper src ++ "_LOG_GROUP_ARN")
        = Some a →
        a ≠ "" →
        ∃ d, entry_of σ' l "handlers" hk = Some d
             ∧ d !! "formatter" = Some (VStr "airflow")
             ∧ d !! "kms_key_arn"
               = Some (of_optional (env !! "MWAA__CORE__KMS_KEY_ARN"))
             ∧ ∃ c, d !! "class" = Some (VStr (qualified_name c)).
Proof.
  intros Hdef.
  destruct (module_body_outcome env σ0 h lg t Hdef)
    as (l & σ' & E & _ & _ & Hrows & _).
  exists l, σ'. split; [done|].
  intros src hk lk mk a Hrow Ha Hne.
  pose proof (Hrows src hk lk mk Hrow) as R.
  assert (truthy (log_group_arn_of src env) = true) as Ht
    by (apply truthy_nonempty; eauto).
  rewrite Ht in R. destruct R as [Rh _].
  eexists. split; [exact Rh|]. by eapply configured_common_fields.
Qed.

(** X6.  The copy is one level deep.  [LOGGING_CONFIG] is a new object
    and the top level of [DEFAULT_LOGGING_CONFIG] is left as it was, but
    the handlers and loggers the module writes are written into Airflow's
    own dicts: they are read back from [DEFAULT_LOGGING_CONFIG] too. *)
Theorem X6_default_config_modified (env : environ) (σ0 : heap) (h lg t : loc) :
  airflow_default σ0 h lg t →
  ∃ l σ',
    module_body env σ0 = Ok l σ'
    ∧ (l ∉ dom σ0) ∧ l ≠ DEFAULT_LOGGING_CONFIG
    ∧ σ' !! DEFAULT_LOGGING_CONFIG = σ0 !! DEFAULT_LOGGING_CONFIG
    ∧ ∀ src hk lk mk a, (src, hk, lk, mk) ∈ configured env →
        env !! ("MWAA__LOGGING__AIRFLOW_" ++ upper src ++ "_LOG_GROUP_ARN")
        = Some a →
        a ≠ "" →
        entry_of σ' DEFAULT_LOGGING_CONFIG "handlers" hk
        = Some (mk (Some a) (env !! "MWAA__CORE__KMS_KEY_ARN")
                   (logging_enabled_of src env))
        ∧ (lk ≠ "airflow.task" →
           entry_of σ' DEFAULT_LOGGING_CONFIG "loggers" lk
           = Some (logger_entry hk (log_level_of src env))).
Proof.
  intros Hdef.
  destruct (module_body_outcome env σ0 h lg t Hdef)
    as (l & σ' & E & Htop & F & Hrows & _).
  destruct (module_body_loc env σ0 l σ' E) as [_ Hl].
  pose proof Hdef as [[(D0 & HD & _) _ _ _] Hnd].
  assert (σ' !! DEFAULT_LOGGING_CONFIG = σ0 !! DEFAULT_LOGGING_CONFIG) as Hd.
  { apply NoDup_cons in Hnd as [Hnot _].
    rewrite !not_elem_of_cons in Hnot. destruct Hnot as (? & ? & ? & _).
    apply F; [by apply elem_of_dom_2 in HD | done..]. }
  exists l, σ'. split; [done|]. split; [done|]. split.
  { intros ->. by apply elem_of_dom_2 in HD. }
  split; [done|].
  intros src hk lk mk a Hrow Ha Hne.
  pose proof (Hrows src hk lk mk Hrow) as R.
  assert (truthy (log_group_arn_of src env) = true) as Ht
    by (apply truthy_nonempty; eauto).
  rewrite Ht in R. destruct R as [Rh Rl].
  change (log_group_arn_of src env)
    with (env !! ("MWAA__LOGGING__AIRFLOW_" ++ upper src ++ "_LOG_GROUP_ARN"))
    in Rh.
  rewrite Ha in Rh.
  assert (∀ sec k, entry_of σ' DEFAULT_LOGGING_CONFIG sec k
                   = entry_of σ' l sec k) as Halias.
  { intros sec k. unfold entry_of.
    by rewrite (item_of_alias σ' DEFAULT_LOGGING_CONFIG l) by congruence. }
  rewrite !Halias. split; [done|]. exact Rl.
Qed.

(** X8.  A source is configured from its own three variables, the key
    and HOME, and from nothing else: two environments that agree on these
    give the handler and the logger of the source the same contents, or,
    with no log group, leave both keys as they were, whatever the other
    sources are set to. *)
Theorem X8_sources_independent (env1 env2 : environ) (σ0 : heap)
    (h lg t : loc) (src : string) :
  airflow_default σ0 h lg t →
  (∀ k, k ∈ "HOME" :: "MWAA__CORE__KMS_KEY_ARN" :: source_vars src →
        env1 !! k = env2 !! k) →
  ∃ l σ1 σ2,
    module_body env1 σ0 = Ok l σ1 ∧ module_body env2 σ0 = Ok l σ2
    ∧ ∀ hk lk mk, (src, hk, lk, mk) ∈ configured env1 →
        let arn :=
          env1 !! ("MWAA__LOGGING__AIRFLOW_" ++ upper src ++ "_LOG_GROUP_ARN") in
        (∀ a, arn = Some a → a ≠ "" →
           is_Some (entry_of σ1 l "handlers" hk)
           ∧ entry_of σ1 l "handlers" hk = entry_of σ2 l "handlers" hk
           ∧ entry_of σ1 l "loggers" lk = entry_of σ2 l "loggers" lk)
        ∧ (arn = None ∨ arn = Some "" →
           item_of σ1 l "handlers" hk
           = item_of σ0 DEFAULT_LOGGING_CONFIG "handlers" hk
           ∧ item_of σ2 l "handlers" hk
             = item_of σ0 DEFAULT_LOGGING_CONFIG "handlers" hk
           ∧ item_of σ1 l "loggers" lk
             = item_of σ0 DEFAULT_LOGGING_CONFIG "loggers" lk
           ∧ item_of σ2 l "loggers" lk
             = item_of σ0 DEFAULT_LOGGING_CONFIG "loggers" lk).
Proof.
  intros Hdef Hagree.
  destruct (module_body_outcome env1 σ0 h lg t Hdef)
    as (l1 & σ1 & E1 & _ & _ & Hrows1 & _ & _ & (T0 & HT0 & HT1) & _).
  destruct (module_body_outcome env2 σ0 h lg t Hdef)
    as (l2 & σ2 & E2 & _ & _ & Hrows2 & _ & _ & (T0' & HT0' & HT2) & _).
  destruct (module_body_loc _ _ _ _ E1) as [-> _].
  destruct (module_body_loc _ _ _ _ E2) as [-> _].
  assert (T0' = T0) as -> by congruence.
  exists (fresh (dom σ0)), σ1, σ2. split; [done|]. split; [done|].
  assert (logging_env_vars src env1 = logging_env_vars src env2) as Hvars.
  { apply logging_env_vars_agree. intros k Hk. apply Hagree. by do 2 right. }
  assert (log_group_arn_of src env1 = log_group_arn_of src env2) as Harn
    by (unfold log_group_arn_of; by rewrite Hvars).
  assert (log_level_of src env1 = log_level_of src env2) as Hlevel
    by (unfold log_level_of; by rewrite Hvars).
  assert (logging_enabled_of src env1 = logging_enabled_of src env2) as Hen
    by (unfold logging_enabled_of; by rewrite Hvars).
  assert (configured env1 = configured env2) as Hconf
    by (unfold configured; by rewrite (Hagree "HOME") by left).
  intros hk lk mk Hrow arn.
  pose proof (Hrows1 src hk lk mk Hrow) as R1.
  rewrite Hconf in Hrow.
  pose proof (Hrows2 src hk lk mk Hrow) as R2.
  rewrite <- Harn, <- Hlevel, <- Hen in R2.
  rewrite <- (Hagree "MWAA__CORE__KMS_KEY_ARN") in R2 by (right; left).
  change (log_group_arn_of src env1) with arn in R1, R2.
  split.
  - intros a Ha Hne.
    assert (truthy arn = true) as Ht by (apply truthy_nonempty; eauto).
    rewrite Ht in R1, R2. destruct R1 as [R1h R1l], R2 as [R2h R2l].
    split; [rewrite R1h; eauto|]. split; [congruence|].
    destruct (decide (lk = "airflow.task")) as [->|Hlk].
    + assert (src = "task") as -> by (in_configured Hrow; done).
      rewrite <- Harn, <- Hlevel in HT2. congruence.
    + rewrite R1l, R2l by done. done.
  - intros Ht%truthy_false. rewrite Ht in R1, R2.
    destruct R1 as [R1h R1l], R2 as [R2h R2l]. done.
Qed.

(** ** Running [_configure] again *)

(** X7.  [_configure] can be run again on the configuration it has made:
    it returns; the top level is as it was; every handler and logger key
    holds what it held or a new dict with the same contents; and the
    "airflow.task" logger has the same fields. *)
Theorem X7_configure_again (env : environ) (σ0 : heap) (h lg t : loc) :
  airflow_default σ0 h lg t →
  ∃ l σ' σ'',
    module_body env σ0 = Ok l σ'
    ∧ _configure l env σ' = Ok tt σ''
    ∧ (∀ k, top_of σ'' l k = top_of σ' l k)
    ∧ (∀ sec k, sec = "handlers" ∨ sec = "loggers" →
         item_of σ'' l sec k = item_of σ' l sec k
         ∨ (is_Some (entry_of σ' l sec k)
            ∧ entry_of σ'' l sec k = entry_of σ' l sec k))
    ∧ entry_of σ'' l "loggers" "airflow.task"
      = entry_of σ' l "loggers" "airflow.task".
Proof.
  intros Hdef. pose proof Hdef as [[(D0 & HD & Dh & Dlg) [H0 HH]
                                    (G0 & HG & Gt) [T0 HT]] Hnd].
  destruct (module_body_spec env σ0 h lg t D0 H0 G0 T0 Hdef HD HH HG HT)
    as (l & σ' & H' & G' & E & Hl & HL' & HH' & HG' & HT' & F & EH & EG).
  assert (G' !! "airflow.task" = Some (VDict t)) as Gt'.
  { specialize (EG "airflow.task").
    rewrite (last_set_other_logger env "airflow.task") in EG.
    - simpl in EG. congruence.
    - unfold new_logger_names. intros Hin.
      repeat (apply elem_of_cons in Hin as [Hin|Hin]; [discriminate|]).
      by apply elem_of_nil in Hin. }
  assert (NoDup [l; h; lg; t]) as Hnd'.
  { apply NoDup_cons in Hnd as [_ Hnd]. apply NoDup_cons. split; [|done].
    rewrite !not_elem_of_cons. repeat split; try apply not_elem_of_nil;
      intros ->; apply Hl; by eapply elem_of_dom_2. }
  destruct (distinct_locs _ _ _ _ Hnd') as (Hlh & Hllg & Hlt & _).
  destruct (exec_post l h lg t Hnd' env (plan env) σ')
    as (σ'' & E2 & _ & [F2 _ S2 U2]).
  { repeat split; eauto. }
  { apply plan_ok. }
  destruct (S2 "handlers" h H') as (H'' & HH'' & EH2); [by left | done |].
  destruct (S2 "loggers" lg G') as (G'' & HG'' & EG2); [by right | done |].
  assert (σ'' !! l = Some D0) as HL''.
  { rewrite F2; [done | by eapply elem_of_dom_2 | done..]. }
  exists l, σ', σ''. split; [done|]. split.
  { by rewrite configure_plan. }
  split. { intros k. unfold top_of. by rewrite HL', HL''. }
  split.
  - intros sec k [-> | ->].
    + rewrite (item_of_eq σ'' l "handlers" k h D0 H''),
              (item_of_eq σ' l "handlers" k h D0 H') by done.
      specialize (EH k). specialize (EH2 k).
      destruct (last_set "handlers" k (plan env)) as [d|]; simpl in *;
        [right | by left].
      destruct EH as (r1 & _ & Hr1 & Hd1), EH2 as (r2 & _ & Hr2 & Hd2).
      rewrite (entry_of_eq σ' l "handlers" k h r1 D0 H'),
              (entry_of_eq σ'' l "handlers" k h r2 D0 H'') by done.
      split; [eauto | congruence].
    + rewrite (item_of_eq σ'' l "loggers" k lg D0 G''),
              (item_of_eq σ' l "loggers" k lg D0 G') by done.
      specialize (EG k). specialize (EG2 k).
      destruct (last_set "loggers" k (plan env)) as [d|]; simpl in *;
        [right | by left].
      destruct EG as (r1 & _ & Hr1 & Hd1), EG2 as (r2 & _ & Hr2 & Hd2).
      rewrite (entry_of_eq σ' l "loggers" k lg r1 D0 G'),
              (entry_of_eq σ'' l "loggers" k lg r2 D0 G'') by done.
      split; [eauto | congruence].
  - assert (G'' !! "airflow.task" = Some (VDict t)) as Gt''.
    { specialize (EG2 "airflow.task").
      rewrite (last_set_other_logger env "airflow.task") in EG2.
      - simpl in EG2. congruence.
      - unfold new_logger_names. intros Hin.
        repeat (apply elem_of_cons in Hin as [Hin|Hin]; [discriminate|]).
        by apply elem_of_nil in Hin. }
    rewrite (entry_of_eq σ' l "loggers" "airflow.task" lg t D0 G'),
            (entry_of_eq σ'' l "loggers" "airflow.task" lg t D0 G'') by done.
    rewrite (U2 _ HT'), HT', !plan_updates.
    destruct (truthy _); [|done].
    by rewrite !level_update, insert_insert_eq.
Qed.

End Config.

(** * The theorems at the instance *)

(** The hypotheses on Airflow's configuration hold of the instance. *)

Lemma example_shape : airflow_shape 1 example_heap 4 5 13.
Proof.
  split.
  - exists example_config. repeat split; vm_compute; exact eq_refl.
  - exists example_handlers. vm_compute. exact eq_refl.
  - exists example_loggers. split; vm_compute; exact eq_refl.
  - exists example_task_logger. vm_compute. exact eq_refl.
Defined.

Lemma example_default : airflow_default 1 example_heap 4 5 13.
Proof.
  split; [exact example_shape|].
  repeat (apply NoDup_cons_2;
          [intros Hin;
           repeat (apply elem_of_cons in Hin as [Hin|Hin]; [discriminate|]);
           by apply elem_of_nil in Hin|]).
  apply NoDup_nil_2.
Defined.

Lemma C1_witness :
  airflow_shape 1 example_heap 4 5 13
  ∧ ∃ l σ',
      module_body 1 "~/logs"
        "/usr/local/airflow/logs/dag_processor_manager/dag_processor_manager.log"
        "{{ filename }}.log" example_qualified_name example_expanduser
        example_basename example_environ example_heap
      = Ok l σ'.
Proof.
  split; [exact example_shape|].
  exact (proj1 (C1_configure_never_raises 1 "~/logs"
    "/usr/local/airflow/logs/dag_processor_manager/dag_processor_manager.log"
    "{{ filename }}.log" example_qualified_name example_expanduser
    example_basename example_environ example_heap 4 5 13 example_shape)).
Defined.

Lemma C3_witness :
  airflow_default 1 example_heap 4 5 13
  ∧ ∃ l σ',
      module_body 1 "~/logs"
        "/usr/local/airflow/logs/dag_processor_manager/dag_processor_manager.log"
        "{{ filename }}.log" example_qualified_name example_expanduser
        example_basename example_environ example_heap
      = Ok l σ'
      ∧ is_Some (entry_of σ' l "handlers" "processor_manager")
      ∧ is_Some (entry_of σ' l "loggers" "airflow.processor").
Proof.
  split; [exact example_default|].
  destruct (C3_dag_processing_entries 1 "~/logs"
    "/usr/local/airflow/logs/dag_processor_manager/dag_processor_manager.log"
    "{{ filename }}.log" example_qualified_name example_expanduser
    example_basename example_environ example_heap 4 5 13 example_default)
    as (l & σ' & E & Hset & _).
  exists l, σ'. split; [exact E|].
  destruct (Hset
    "arn:aws:logs:us-west-2:123456789012:log-group:airflow-env-DAGProcessing")
    as (-> & _ & _ & ->); [vm_compute; exact eq_refl | discriminate |].
  split; eexists; reflexivity.
Defined.

Lemma C4_witness :
  airflow_default 1 example_heap 4 5 13
  ∧ ∃ l σ',
      module_body 1 "~/logs"
        "/usr/local/airflow/logs/dag_processor_manager/dag_processor_manager.log"
        "{{ filename }}.log" example_qualified_name example_expanduser
        example_basename example_environ example_heap
      = Ok l σ'
      ∧ is_Some (entry_of σ' l "handlers" "task").
Proof.
  split; [exact example_default|].
  destruct (C4_task_entries 1 "~/logs"
    "/usr/local/airflow/logs/dag_processor_manager/dag_processor_manager.log"
    "{{ filename }}.log" example_qualified_name example_expanduser
    example_basename example_environ example_heap 4 5 13 example_default)
    as (l & σ' & E & Hset).
  exists l, σ'. split; [exact E|].
  destruct (Hset
    "arn:aws:logs:us-west-2:123456789012:log-group:airflow-env-Task")
    as (-> & _); [vm_compute; exact eq_refl | discriminate |].
  eexists; reflexivity.
Defined.

Lemma C5_witness :
  airflow_default 1 example_heap 4 5 13
  ∧ ∃ l σ',
      module_body 1 "~/logs"
        "/usr/local/airflow/logs/dag_processor_manager/dag_processor_manager.log"
        "{{ filename }}.log" example_qualified_name example_expanduser
        example_basename example_environ example_heap
      = Ok l σ'
      ∧ item_of σ' l "handlers" "console" = Some (VDict 9)
      ∧ top_of σ' l "version" = Some (VInt 1).
Proof.
  split; [exact example_default|].
  destruct (C5_frame 1 "~/logs"
    "/usr/local/airflow/logs/dag_processor_manager/dag_processor_manager.log"
    "{{ filename }}.log" example_qualified_name example_expanduser
    example_basename example_environ example_heap 4 5 13 example_default)
    as (l & σ' & E & Htop & Hh & _).
  exists l, σ'. split; [exact E|]. split.
  - rewrite Hh; [vm_compute; exact eq_refl|].
    unfold handler_names. intros Hin.
    repeat (apply elem_of_cons in Hin as [Hin|Hin]; [discriminate|]).
    by apply elem_of_nil in Hin.
  - rewrite Htop. vm_compute. exact eq_refl.
Defined.

Lemma C6_witness :
  (∀ k, k ∈ consulted_vars →
        (<["PATH" := "/usr/local/bin:/usr/bin"]> example_environ) !! k
        = example_environ !! k)
  ∧ module_body 1 "~/logs"
      "/usr/local/airflow/logs/dag_processor_manager/dag_processor_manager.log"
      "{{ filename }}.log" example_qualified_name example_expanduser
      example_basename (<["PATH" := "/usr/local/bin:/usr/bin"]> example_environ)
      example_heap
    = module_body 1 "~/logs"
        "/usr/local/airflow/logs/dag_processor_manager/dag_processor_manager.log"
        "{{ filename }}.log" example_qualified_name example_expanduser
        example_basename example_environ example_heap.
Proof.
  assert (∀ k, k ∈ consulted_vars →
            (<["PATH" := "/usr/local/bin:/usr/bin"]> example_environ) !! k
            = example_environ !! k) as Hagree.
  { intros k Hk. apply lookup_insert_ne.
    unfold consulted_vars, mwaa_vars, log_sources, components in Hk.
    simpl in Hk.
    repeat (apply elem_of_cons in Hk as [->|Hk]; [discriminate|]).
    by apply elem_of_nil in Hk. }
  split; [exact Hagree|].
  exact (C6_deterministic 1 "~/logs"
    "/usr/local/airflow/logs/dag_processor_manager/dag_processor_manager.log"
    "{{ filename }}.log" example_qualified_name example_expanduser
    example_basename _ _ example_heap Hagree).
Defined.

Lemma C7_witness :
  airflow_shape 1 example_heap 4 5 13
  ∧ ∃ l σ',
      module_body 1 "~/logs"
        "/usr/local/airflow/logs/dag_processor_manager/dag_processor_manager.log"
        "{{ filename }}.log" example_qualified_name example_expanduser
        example_basename example_environ example_heap
      = Ok l σ'
      ∧ is_Some (top_of σ' l "root")
      ∧ is_Some (item_of σ' l "handlers" "console")
      ∧ is_Some (item_of σ' l "loggers" "flask_appbuilder").
Proof.
  split; [exact example_shape|].
  destruct (C7_no_entry_removed 1 "~/logs"
    "/usr/local/airflow/logs/dag_processor_manager/dag_processor_manager.log"
    "{{ filename }}.log" example_qualified_name example_expanduser
    example_basename example_environ example_heap 4 5 13 example_shape)
    as (l & σ' & E & Htop & Hh & Hl).
  exists l, σ'. split; [exact E|].
  split; [|split]; [apply Htop | apply Hh | apply Hl];
    eexists; vm_compute; exact eq_refl.
Defined.

Lemma C8_witness :
  airflow_default 1 example_heap 4 5 13
  ∧ ∃ l σ',
      module_body 1 "~/logs"
        "/usr/local/airflow/logs/dag_processor_manager/dag_processor_manager.log"
        "{{ filename }}.log" example_qualified_name example_expanduser
        example_basename example_environ example_heap
      = Ok l σ'
      ∧ (∃ d, entry_of σ' l "handlers" "mwaa_worker" = Some d
              ∧ d !! "enabled" = Some (VBool false))
      ∧ item_of σ' l "handlers" "mwaa_scheduler" = None.
Proof.
  split; [exact example_default|].
  destruct (C8_gated_by_log_group 1 "~/logs"
    "/usr/local/airflow/logs/dag_processor_manager/dag_processor_manager.log"
    "{{ filename }}.log" example_qualified_name example_expanduser
    example_basename example_environ example_heap 4 5 13 example_default)
    as (l & σ' & E & Hrows).
  exists l, σ'. split; [exact E|]. split.
  - edestruct (Hrows "Worker" "mwaa_worker" "mwaa.worker") as [Hon _].
    { unfold configured. do 3 apply list_elem_of_further.
      apply list_elem_of_here. }
    destruct (Hon
      "arn:aws:logs:us-west-2:123456789012:log-group:airflow-env-Worker")
      as ((d & Hd & Hen & _) & _); [vm_compute; exact eq_refl | discriminate | |].
    + intros v Hv Hin. apply lower_case_variants in Hin.
      vm_compute in Hv. injection Hv as <-. discriminate Hin.
    + exists d. by split.
  - edestruct (Hrows "Scheduler" "mwaa_scheduler" "mwaa.scheduler")
      as [_ Hoff].
    { unfold configured. do 5 apply list_elem_of_further.
      apply list_elem_of_here. }
    destruct Hoff as (-> & _); [right; vm_compute; exact eq_refl|].
    vm_compute. exact eq_refl.
Defined.

Lemma C9_witness :
  airflow_default 1 example_heap 4 5 13
  ∧ ∃ l σ',
      module_body 1 "~/logs"
        "/usr/local/airflow/logs/dag_processor_manager/dag_processor_manager.log"
        "{{ filename }}.log" example_qualified_name example_expanduser
        example_basename example_environ example_heap
      = Ok l σ'
      ∧ is_Some (entry_of σ' l "handlers" "mwaa_worker")
      ∧ is_Some (entry_of σ' l "handlers" "mwaa_worker_requirements").
Proof.
  split; [exact example_default|].
  destruct (C9_requirements_share_settings 1 "~/logs"
    "/usr/local/airflow/logs/dag_processor_manager/dag_processor_manager.log"
    "{{ filename }}.log" example_qualified_name example_expanduser
    example_basename example_environ example_heap 4 5 13 example_default)
    as (l & σ' & E & Hcomp).
  exists l, σ'. split; [exact E|].
  destruct (Hcomp "Worker") as (Hon & _); [left|].
  destruct Hon as (H1 & H2 & _); [vm_compute; exact eq_refl|].
  split; eexists; [exact H1 | exact H2].
Defined.

Lemma C10_witness :
  airflow_default 1 example_heap 4 5 13
  ∧ ∃ l σ',
      module_body 1 "~/logs"
        "/usr/local/airflow/logs/dag_processor_manager/dag_processor_manager.log"
        "{{ filename }}.log" example_qualified_name example_expanduser
        example_basename example_environ example_heap
      = Ok l σ'
      ∧ ∀ v, item_of σ' l "loggers" "mwaa.worker" = Some v →
          ∃ handler_name, is_Some (item_of σ' l "handlers" handler_name).
Proof.
  split; [exact example_default|].
  destruct (C10_added_loggers 1 "~/logs"
    "/usr/local/airflow/logs/dag_processor_manager/dag_processor_manager.log"
    "{{ filename }}.log" example_qualified_name example_expanduser
    example_basename example_environ example_heap 4 5 13 example_default)
    as (l & σ' & E & Hadded).
  exists l, σ'. split; [exact E|].
  intros v Hv.
  destruct (Hadded "mwaa.worker" v Hv) as (hn & _ & _ & Hhn).
  - vm_compute. discriminate.
  - by exists hn.
Defined.

(** The hypothesis on the "airflow.task" logger is needed: on a default
    configuration without it, a TASK log group makes the update fail, after
    the "task" handler has been assigned. *)
Example configure_needs_task_logger :
  module_body 1 "~/logs"
    "/usr/local/airflow/logs/dag_processor_manager/dag_processor_manager.log"
    "{{ filename }}.log" example_qualified_name example_expanduser
    example_basename example_environ
    (<[5%positive := delete "airflow.task" example_loggers]> example_heap)
  = Raise (KeyError "airflow.task").
Proof. vm_compute. exact eq_refl. Qed.

(** With nothing set, the configuration is the copy of the default one
    and the store is otherwise as it was. *)
Example configure_empty_environment :
  module_body 1 "~/logs"
    "/usr/local/airflow/logs/dag_processor_manager/dag_processor_manager.log"
    "{{ filename }}.log" example_qualified_name example_expanduser
    example_basename ∅ example_heap
  = Ok 15%positive (<[15%positive := example_config]> example_heap).
Proof. vm_compute. exact eq_refl. Qed.

(** * The further theorems at instances *)

Lemma X1_witness :
  ({[1%positive := ∅]} : heap) !! 1%positive = Some ∅
  ∧ module_body 1 "~/logs"
      "/usr/local/airflow/logs/dag_processor_manager/dag_processor_manager.log"
      "{{ filename }}.log" example_qualified_name example_expanduser
      example_basename
      (<["MWAA__LOGGING__AIRFLOW_WORKER_LOG_GROUP_ARN" := ""]>
         {["MWAA__LOGGING__AIRFLOW_TASK_LOGS_ENABLED" := "true"]})
      {[1%positive := ∅]}
    = Ok (fresh (dom ({[1%positive := ∅]} : heap)))
         (<[fresh (dom ({[1%positive := ∅]} : heap)) := ∅]>
            {[1%positive := ∅]}).
Proof.
  split; [vm_compute; exact eq_refl|].
  apply (X1_nothing_configured 1 "~/logs"
    "/usr/local/airflow/logs/dag_processor_manager/dag_processor_manager.log"
    "{{ filename }}.log" example_qualified_name example_expanduser
    example_basename).
  - vm_compute. exact eq_refl.
  - intros source Hsource. unfold log_sources, components in Hsource.
    repeat (apply elem_of_cons in Hsource as [->|Hsource]);
      try (by apply elem_of_nil in Hsource);
      first [ left; vm_compute; exact eq_refl
            | right; vm_compute; exact eq_refl ].
Defined.

Lemma X2_witness :
  ({[1%positive := ∅]} : heap) !! 1%positive = Some ∅
  ∧ module_body 1 "~/logs"
      "/usr/local/airflow/logs/dag_processor_manager/dag_processor_manager.log"
      "{{ filename }}.log" example_qualified_name example_expanduser
      example_basename example_environ {[1%positive := ∅]}
    = Raise (KeyError "handlers").
Proof.
  split; [vm_compute; exact eq_refl|].
  apply (X2_handlers_missing 1 "~/logs"
    "/usr/local/airflow/logs/dag_processor_manager/dag_processor_manager.log"
    "{{ filename }}.log" example_qualified_name example_expanduser
    example_basename example_environ {[1%positive := ∅]} ∅).
  - vm_compute. exact eq_refl.
  - vm_compute. exact eq_refl.
  - exists "task",
      "arn:aws:logs:us-west-2:123456789012:log-group:airflow-env-Task".
    split; [left|]. split; [vm_compute; exact eq_refl | discriminate].
Defined.

Lemma X3_witness :
  section_error "loggers"
    (dict_of [("handlers", VDict 2); ("loggers", VList [])] !! "loggers")
  = Some TypeError
  ∧ module_body 1 "~/logs"
      "/usr/local/airflow/logs/dag_processor_manager/dag_processor_manager.log"
      "{{ filename }}.log" example_qualified_name example_expanduser
      example_basename example_environ
      (<[2%positive := ∅]>
         {[1%positive := dict_of [("handlers", VDict 2); ("loggers", VList [])]]})
    = Raise TypeError.
Proof.
  split; [vm_compute; exact eq_refl|].
  apply (X3_loggers_missing 1 "~/logs"
    "/usr/local/airflow/logs/dag_processor_manager/dag_processor_manager.log"
    "{{ filename }}.log" example_qualified_name example_expanduser
    example_basename example_environ _
    (dict_of [("handlers", VDict 2); ("loggers", VList [])]) ∅ 2).
  - vm_compute. exact eq_refl.
  - vm_compute. exact eq_refl.
  - vm_compute. exact eq_refl.
  - vm_compute. exact eq_refl.
  - exists "dagprocessor",
      "arn:aws:logs:us-west-2:123456789012:log-group:airflow-env-DAGProcessing".
    split; [right; left|]. split; [vm_compute; exact eq_refl | discriminate].
Defined.

Lemma X4_witness :
  task_logger_error (delete "airflow.task" example_loggers !! "airflow.task")
  = Some (KeyError "airflow.task")
  ∧ module_body 1 "~/logs"
      "/usr/local/airflow/logs/dag_processor_manager/dag_processor_manager.log"
      "{{ filename }}.log" example_qualified_name example_expanduser
      example_basename example_environ
      (<[5%positive := delete "airflow.task" example_loggers]> example_heap)
    = Raise (KeyError "airflow.task").
Proof.
  split; [vm_compute; exact eq_refl|].
  apply (X4_task_logger_missing 1 "~/logs"
    "/usr/local/airflow/logs/dag_processor_manager/dag_processor_manager.log"
    "{{ filename }}.log" example_qualified_name example_expanduser
    example_basename example_environ _ example_config example_handlers
    (delete "airflow.task" example_loggers) 4 5
    "arn:aws:logs:us-west-2:123456789012:log-group:airflow-env-Task").
  - vm_compute. exact eq_refl.
  - vm_compute. exact eq_refl.
  - vm_compute. exact eq_refl.
  - vm_compute. exact eq_refl.
  - vm_compute. exact eq_refl.
  - vm_compute. exact eq_refl.
  - vm_compute. exact eq_refl.
  - discriminate.
Defined.

Lemma X6_witness :
  airflow_default 1 example_heap 4 5 13
  ∧ ∃ l σ',
      module_body 1 "~/logs"
        "/usr/local/airflow/logs/dag_processor_manager/dag_processor_manager.log"
        "{{ filename }}.log" example_qualified_name example_expanduser
        example_basename example_environ example_heap
      = Ok l σ'
      ∧ l ≠ 1%positive
      ∧ is_Some (entry_of σ' 1 "handlers" "mwaa_worker").
Proof.
  split; [exact example_default|].
  destruct (X6_default_config_modified 1 "~/logs"
    "/usr/local/airflow/logs/dag_processor_manager/dag_processor_manager.log"
    "{{ filename }}.log" example_qualified_name example_expanduser
    example_basename example_environ example_heap 4 5 13 example_default)
    as (l & σ' & E & _ & Hl & _ & Hrows).
  exists l, σ'. split; [exact E|]. split; [exact Hl|].
  edestruct (Hrows "Worker" "mwaa_worker" "mwaa.worker") as [-> _].
  - unfold configured. do 3 apply list_elem_of_further.
    apply list_elem_of_here.
  - vm_compute. exact eq_refl.
  - discriminate.
  - eexists. reflexivity.
Defined.

Lemma X7_witness :
  airflow_default 1 example_heap 4 5 13
  ∧ ∃ l σ' σ'',
      module_body 1 "~/logs"
        "/usr/local/airflow/logs/dag_processor_manager/dag_processor_manager.log"
        "{{ filename }}.log" example_qualified_name example_expanduser
        example_basename example_environ example_heap
      = Ok l σ'
      ∧ _configure "~/logs"
          "/usr/local/airflow/logs/dag_processor_manager/dag_processor_manager.log"
          "{{ filename }}.log" example_qualified_name example_expanduser
          example_basename l example_environ σ'
        = Ok tt σ''
      ∧ entry_of σ'' l "loggers" "airflow.task"
        = entry_of σ' l "loggers" "airflow.task".
Proof.
  split; [exact example_default|].
  destruct (X7_configure_again 1 "~/logs"
    "/usr/local/airflow/logs/dag_processor_manager/dag_processor_manager.log"
    "{{ filename }}.log" example_qualified_name example_expanduser
    example_basename example_environ example_heap 4 5 13 example_default)
    as (l & σ' & σ'' & E & E2 & _ & _ & Htask).
  exists l, σ', σ''. split; [exact E|]. split; [exact E2 | exact Htask].
Defined.

Lemma X8_witness :
  airflow_default 1 example_heap 4 5 13
  ∧ ∃ l σ1 σ2,
      module_body 1 "~/logs"
        "/usr/local/airflow/logs/dag_processor_manager/dag_processor_manager.log"
        "{{ filename }}.log" example_qualified_name example_expanduser
        example_basename example_environ example_heap
      = Ok l σ1
      ∧ module_body 1 "~/logs"
          "/usr/local/airflow/logs/dag_processor_manager/dag_processor_manager.log"
          "{{ filename }}.log" example_qualified_name example_expanduser
          example_basename
          (<["MWAA__LOGGING__AIRFLOW_SCHEDULER_LOG_GROUP_ARN"
             := "arn:aws:logs:us-west-2:123456789012:log-group:airflow-env-Scheduler"]>
             example_environ)
          example_heap
        = Ok l σ2
      ∧ entry_of σ1 l "handlers" "mwaa_worker"
        = entry_of σ2 l "handlers" "mwaa_worker".
Proof.
  split; [exact example_default|].
  destruct (X8_sources_independent 1 "~/logs"
    "/usr/local/airflow/logs/dag_processor_manager/dag_processor_manager.log"
    "{{ filename }}.log" example_qualified_name example_expanduser
    example_basename example_environ
    (<["MWAA__LOGGING__AIRFLOW_SCHEDULER_LOG_GROUP_ARN"
       := "arn:aws:logs:us-west-2:123456789012:log-group:airflow-env-Scheduler"]>
       example_environ)
    example_heap 4 5 13 "Worker" example_default)
    as (l & σ1 & σ2 & E1 & E2 & Hrows).
  - intros k Hk. symmetry. apply lookup_insert_ne.
    unfold source_vars in Hk. simpl in Hk.
    repeat (apply elem_of_cons in Hk as [->|Hk]; [discriminate|]).
    by apply elem_of_nil in Hk.
  - exists l, σ1, σ2. split; [exact E1|]. split; [exact E2|].
    edestruct (Hrows "mwaa_worker" "mwaa.worker") as [Hon _].
    { unfold configured. do 3 apply list_elem_of_further.
      apply list_elem_of_here. }
    destruct (Hon
      "arn:aws:logs:us-west-2:123456789012:log-group:airflow-env-Worker")
      as (_ & Hsame & _); [vm_compute; exact eq_refl | discriminate |].
    exact Hsame.
Defined.

Lemma X9_witness :
  airflow_default 1 example_heap 4 5 13
  ∧ ∃ l σ',
      module_body 1 "~/logs"
        "/usr/local/airflow/logs/dag_processor_manager/dag_processor_manager.log"
        "{{ filename }}.log" example_qualified_name example_expanduser
        example_basename example_environ example_heap
      = Ok l σ'
      ∧ ∃ d, entry_of σ' l "handlers" "processor" = Some d
             ∧ d !! "kms_key_arn"
               = Some (VStr "arn:aws:kms:us-west-2:123456789012:key/aaaa-bbbb").
Proof.
  split; [exact example_default|].
  destruct (X9_handlers_share_key 1 "~/logs"
    "/usr/local/airflow/logs/dag_processor_manager/dag_processor_manager.log"
    "{{ filename }}.log" example_qualified_name example_expanduser
    example_basename example_environ example_heap 4 5 13 example_default)
    as (l & σ' & E & Hrows).
  exists l, σ'. split; [exact E|].
  edestruct (Hrows "dagprocessor" "processor" "airflow.processor")
    as (d & Hd & _ & Hkms & _).
  - unfold configured. do 2 apply list_elem_of_further.
    apply list_elem_of_here.
  - vm_compute. exact eq_refl.
  - discriminate.
  - exists d. split; [exact Hd | exact Hkms].
Defined.


Lemma X5_witness :
  isascii "Celery" = true
  ∧ (lower "Celery" ∉ (MWAA_LOGGERS.*1))
  ∧ _configure_subprocesses_logging example_qualified_name 1 "Celery" None
      "INFO" false example_environ example_heap
    = Raise (KeyError "celery").
Proof.
  assert (isascii "Celery" = true) as Hascii by (vm_compute; exact eq_refl).
  assert (lower "Celery" ∉ MWAA_LOGGERS.*1) as Hunknown.
  { intros Hin. vm_compute in Hin.
    repeat (apply elem_of_cons in Hin as [Hin|Hin]; [discriminate|]).
    by apply elem_of_nil in Hin. }
  split; [exact Hascii|]. split; [exact Hunknown|].
  destruct (X5_unknown_subprocess example_qualified_name 1 "Celery" None
              "INFO" false example_environ example_heap Hascii) as [Hraise _].
  exact (Hraise Hunknown).
Defined.

Lemma X10_witness :
  isascii "task" = true
  ∧ isascii "Task" = true
  ∧ "Task" ∈ case_variants "task"
  ∧ ∀ env σ, _get_mwaa_logging_env_vars "Task" env σ
             = _get_mwaa_logging_env_vars "task" env σ.
Proof.
  assert (isascii "task" = true) as H1 by (vm_compute; exact eq_refl).
  assert (isascii "Task" = true) as H2 by (vm_compute; exact eq_refl).
  destruct (X10_source_case "task" "Task" H1 H2) as [Hnames Hsame].
  assert ("Task" ∈ case_variants "task") as Hin.
  { apply (Hnames "_LOG_LEVEL"). vm_compute. exact eq_refl. }
  split; [exact H1|]. split; [exact H2|]. split; [exact Hin|].
  exact (Hsame Hin).
Defined.
